(** * SMPP time codec (cpp-smpp): shallow embedding and verification

    The development follows [smpp/timeformat.cc] (the std::chrono based
    codec), the legacy boost based header [src/timeformat.h], and the
    parts of the C and C++ run-time libraries that code calls
    ([std::regex], [std::stoi], [sprintf], [strptime], [mktime],
    [boost::posix_time::time_duration]).

    Data model
    - [int] is a 32-bit and [long]/[long long] a 64-bit two's complement
      integer (LP64); arithmetic is carried out in [Z] and wrapped.
    - [std::chrono::seconds] is a 64-bit count of seconds,
      [system_clock::time_point] a 64-bit count of nanoseconds.
    - a C++ exception is the [Throw] result of a computation; a call that
      formats into a fixed buffer has an [outcome], which also tells when
      the buffer is too small for what is written to it. *)

From Stdlib Require Import ZArith NArith List String Ascii Bool Lia.
From Stdlib Require Import DecimalString.
Import ListNotations.

Local Open Scope Z_scope.

(** ** Machine integers *)

Module Cxx.

Definition wrap (w : Z) (z : Z) : Z :=
  (z + 2 ^ (w - 1)) mod 2 ^ w - 2 ^ (w - 1).

(** [int] *)
Definition int32 (z : Z) : Z := wrap 32 z.
(** [long], [long long], [int64_t] *)
Definition int64 (z : Z) : Z := wrap 64 z.

Definition INT_MIN : Z := - 2 ^ 31.
Definition INT_MAX : Z := 2 ^ 31 - 1.

(** ** Exceptions and results *)

(** Modelled from the spec: the class [smpp::SmppException] is declared in
    a header that is not among the sources; it is the error that the
    codec reports, carrying a message.  [invalid_argument] and
    [out_of_range] are the exceptions of [std::stoi]. *)
Inductive exn : Type :=
| SmppException (what : string)
| invalid_argument (what : string)
| out_of_range (what : string).

Inductive result (A : Type) : Type :=
| Ok (a : A)
| Throw (e : exn).
Arguments Ok {A} a.
Arguments Throw {A} e.

Definition bind {A B : Type} (c : result A) (k : A -> result B) : result B :=
  match c with
  | Ok a => k a
  | Throw e => Throw e
  end.

(** ** Characters *)

Definition code (c : ascii) : Z := Z.of_N (N_of_ascii c).

Definition isdigit (c : ascii) : bool := (48 <=? code c) && (code c <=? 57).

Definition isspace (c : ascii) : bool :=
  (code c =? 32) || ((9 <=? code c) && (code c <=? 13)).

(** The double-quote character, code 34. *)
Definition dquote : ascii := Ascii false true false false false true false false.

(** ** std::stoi, base 10 *)

Fixpoint skip_space (s : string) : string :=
  match s with
  | String c r => if isspace c then skip_space r else s
  | EmptyString => s
  end.

(** Value of the longest prefix of decimal digits, accumulated left to
    right. *)
Fixpoint digits_value (acc : Z) (s : string) : Z :=
  match s with
  | String c r => if isdigit c then digits_value (acc * 10 + (code c - 48)) r else acc
  | EmptyString => acc
  end.

Definition stoi (str : string) : result Z :=
  let s := skip_space str in
  let '(neg, s) :=
    match s with
    | String c r =>
        if Ascii.eqb c "-"%char then (true, r)
        else if Ascii.eqb c "+"%char then (false, r)
        else (false, s)
    | EmptyString => (false, s)
    end in
  match s with
  | String c _ =>
      if isdigit c then
        let v := digits_value 0 s in
        let v := if neg : bool then - v else v in
        if (INT_MIN <=? v) && (v <=? INT_MAX) then Ok v
        else Throw (out_of_range "stoi"%string)
      else Throw (invalid_argument "stoi"%string)
  | EmptyString => Throw (invalid_argument "stoi"%string)
  end.

(** ** std::regex, the fragment the pattern uses

    The pattern is a sequence of capture groups, each a character class
    repeated an exact number of times, anchored at both ends. *)

Inductive cclass : Type :=
| ClassDigit                       (* \d *)
| ClassBracket (cs : list ascii).  (* [...] *)

Definition class_matches (k : cclass) (c : ascii) : bool :=
  match k with
  | ClassDigit => isdigit c
  | ClassBracket cs => existsb (Ascii.eqb c) cs
  end.

(** One capture group [(k{n})]. *)
Record group : Type := Group { g_class : cclass; g_count : nat }.

(** Match exactly [n] characters of class [k]; the capture and the rest. *)
Fixpoint match_count (k : cclass) (n : nat) (s : string) : option (string * string) :=
  match n with
  | O => Some (EmptyString, s)
  | S n' =>
      match s with
      | String c r =>
          if class_matches k c then
            match match_count k n' r with
            | Some (cap, rest) => Some (String c cap, rest)
            | None => None
            end
          else None
      | EmptyString => None
      end
  end.

(** The groups in order, then the end of the input. *)
Fixpoint match_groups (gs : list group) (s : string) : option (list string) :=
  match gs with
  | [] => match s with EmptyString => Some [] | String _ _ => None end
  | g :: gs' =>
      match match_count (g_class g) (g_count g) s with
      | Some (cap, rest) =>
          match match_groups gs' rest with
          | Some caps => Some (cap :: caps)
          | None => None
          end
      | None => None
      end
  end.

(** [std::smatch] after a regex operation (a ready match): sub-match 0 is
    the whole match, 1.. are the groups.  A default-constructed match,
    on which [match[i]] is out of bounds, is not a value of this type. *)
Definition smatch : Type := list string.

Definition regex_match (pattern : list group) (s : string) : option smatch :=
  match match_groups pattern s with
  | Some caps => Some (s :: caps)
  | None => None
  end.

(** [match[i]] on a ready match: the unmatched (empty) sub-match from
    [size()] on. *)
Definition sub (m : smatch) (i : nat) : string := nth i m EmptyString.
(** [match.size()] *)
Definition size (m : smatch) : nat := List.length m.

(** [sub_match::compare]: negative, zero or positive. *)
Definition compare (a b : string) : Z :=
  match String.compare a b with
  | Eq => 0
  | Lt => -1
  | Gt => 1
  end.

(** ** Number formatting *)

(** Decimal digits of a natural number, no padding. *)
Definition dec (n : Z) : string := NilZero.string_of_uint (N.to_uint (Z.to_N n)).

Fixpoint zeros (n : nat) : string :=
  match n with
  | O => EmptyString
  | S n' => String "0"%char (zeros n')
  end.

(** Pad [s] on the left with '0' up to width [w]. *)
Definition pad0 (w : nat) (s : string) : string :=
  (zeros (w - String.length s) ++ s)%string.

(** [printf("%02i")], [("%02li")], [("%02lli")]: the sign first, then
    zeros, then the digits, at least two characters in all. *)
Definition printf_02 (z : Z) : string :=
  if z <? 0 then String "-"%char (pad0 1 (dec (- z))) else pad0 2 (dec z).

(** [os << setfill('0') << setw(2) << z]: the number with its sign,
    filled on the left up to two characters. *)
Definition ostream_setw2 (z : Z) : string :=
  pad0 2 (if z <? 0 then String "-"%char (dec (- z)) else dec z).

(** The outcome of a call that formats into a local buffer of fixed size:
    it returns or throws, or [sprintf] is asked to store [written] and
    the terminating NUL in a buffer of [capacity] bytes that is too
    small for them, which is undefined behaviour (the call need not
    return at all). *)
Inductive outcome (A : Type) : Type :=
| Returns (r : result A)
| Overrun (written : string) (capacity : nat).
Arguments Returns {A} r.
Arguments Overrun {A} written capacity.

(** [char buf[capacity]; sprintf(buf, ...); return string(buf);] where
    the conversions produce [chars]: [sprintf] stores the characters and
    one NUL. *)
Definition sprintf_buf (capacity : nat) (chars : string) : outcome string :=
  if Nat.leb (String.length chars + 1) capacity then Returns (Ok chars)
  else Overrun chars capacity.

(** [s.substr(pos, len)]: the characters from [pos], [len] at most;
    [pos] beyond the end is an error. *)
Definition substr (s : string) (pos len : nat) : result string :=
  if Nat.leb pos (String.length s) then Ok (substring pos len s)
  else Throw (out_of_range "basic_string::substr"%string).

(** [stream >> i] for an [int i] on a stream that holds [str]: blanks are
    skipped, then a sign and digits are read.  Without a digit the
    extraction fails and stores 0; a value outside [int] is stored as the
    nearest bound. *)
Definition istream_int (str : string) : Z :=
  let s := skip_space str in
  let '(neg, s) :=
    match s with
    | String c r =>
        if Ascii.eqb c "-"%char then (true, r)
        else if Ascii.eqb c "+"%char then (false, r)
        else (false, s)
    | EmptyString => (false, s)
    end in
  match s with
  | String c _ =>
      if isdigit c then
        let v := digits_value 0 s in
        let v := if neg : bool then - v else v in
        if v <? INT_MIN then INT_MIN else if INT_MAX <? v then INT_MAX else v
      else 0
  | EmptyString => 0
  end.

End Cxx.

(** ** The C library: struct tm, mktime, strptime *)

Module Libc.
Import Cxx.

(** The fields of [struct tm] that the codec writes and [mktime] reads,
    and [tm_gmtoff]. *)
Record tm : Type := mkTm {
  tm_sec : Z;
  tm_min : Z;
  tm_hour : Z;
  tm_mday : Z;
  tm_mon : Z;    (* months since January *)
  tm_year : Z;   (* years since 1900 *)
  tm_isdst : Z;
  tm_gmtoff : Z
}.

Definition set_sec (v : Z) (t : tm) : tm :=
  mkTm v (tm_min t) (tm_hour t) (tm_mday t) (tm_mon t) (tm_year t) (tm_isdst t) (tm_gmtoff t).
Definition set_min (v : Z) (t : tm) : tm :=
  mkTm (tm_sec t) v (tm_hour t) (tm_mday t) (tm_mon t) (tm_year t) (tm_isdst t) (tm_gmtoff t).
Definition set_hour (v : Z) (t : tm) : tm :=
  mkTm (tm_sec t) (tm_min t) v (tm_mday t) (tm_mon t) (tm_year t) (tm_isdst t) (tm_gmtoff t).
Definition set_mday (v : Z) (t : tm) : tm :=
  mkTm (tm_sec t) (tm_min t) (tm_hour t) v (tm_mon t) (tm_year t) (tm_isdst t) (tm_gmtoff t).
Definition set_mon (v : Z) (t : tm) : tm :=
  mkTm (tm_sec t) (tm_min t) (tm_hour t) (tm_mday t) v (tm_year t) (tm_isdst t) (tm_gmtoff t).
Definition set_year (v : Z) (t : tm) : tm :=
  mkTm (tm_sec t) (tm_min t) (tm_hour t) (tm_mday t) (tm_mon t) v (tm_isdst t) (tm_gmtoff t).
Definition set_isdst (v : Z) (t : tm) : tm :=
  mkTm (tm_sec t) (tm_min t) (tm_hour t) (tm_mday t) (tm_mon t) (tm_year t) v (tm_gmtoff t).
Definition set_gmtoff (v : Z) (t : tm) : tm :=
  mkTm (tm_sec t) (tm_min t) (tm_hour t) (tm_mday t) (tm_mon t) (tm_year t) (tm_isdst t) v.

(** Days from 1970-01-01 to the proleptic Gregorian date [y]-[m]-[d],
    [m] in 1..12; [d] may lie outside the month. *)
Definition days_from_civil (y m d : Z) : Z :=
  let y' := if m <=? 2 then y - 1 else y in
  let era := y' / 400 in
  let yoe := y' - era * 400 in
  let mp := (m + 9) mod 12 in
  let doy := (153 * mp + 2) / 5 + d - 1 in
  let doe := yoe * 365 + yoe / 4 - yoe / 100 + doy in
  era * 146097 + doe - 719468.

(** Seconds since the epoch of a wall-clock reading taken at UTC. *)
Definition civil_seconds (y m d hh mi ss : Z) : Z :=
  days_from_civil y m d * 86400 + hh * 3600 + mi * 60 + ss.

(** [mktime] in a process whose local time zone is [local_offset]
    seconds east of UTC all year (no daylight saving rule).  The
    broken-down time is read as local time; fields out of range are
    normalised; [tm_gmtoff] is not an input of [mktime].  With
    [tm_isdst = -1] a zone with daylight saving rules applies the offset
    in effect at the date; the results below compare instants of [mktime]
    only for equal calendar fields or within one day. *)
Definition mktime (local_offset : Z) (t : tm) : Z :=
  let y := 1900 + tm_year t + tm_mon t / 12 in
  let m := tm_mon t mod 12 + 1 in
  civil_seconds y m (tm_mday t) (tm_hour t) (tm_min t) (tm_sec t) - local_offset.

(** The conversion specifications of the format the codec uses. *)
Inductive conv : Type := Conv_y | Conv_m | Conv_d | Conv_H | Conv_M.

(** Digits read by a conversion: [n] digits at most, and no further digit
    once ten times the value would pass [hi]. *)
Fixpoint get_digits (n : nat) (hi : Z) (val : Z) (s : string) : Z * string :=
  match n with
  | O => (val, s)
  | S n' =>
      match s with
      | String c r =>
          if (val * 10 <=? hi) && isdigit c
          then get_digits n' hi (val * 10 + (code c - 48)) r
          else (val, s)
      | EmptyString => (val, s)
      end
  end.

(** [get_number(lo, hi, n)]: skip blanks, read at least one digit, check
    the range. *)
Definition get_number (lo hi : Z) (n : nat) (s : string) : option (Z * string) :=
  match skip_space s with
  | String c r =>
      if isdigit c then
        let '(val, rest) := get_digits (n - 1) hi (code c - 48) r in
        if (lo <=? val) && (val <=? hi) then Some (val, rest) else None
      else None
  | EmptyString => None
  end.

Definition strptime_conv (k : conv) (s : string) (t : tm) : option (string * tm) :=
  match k with
  | Conv_y =>
      match get_number 0 99 2 s with
      | Some (val, rest) => Some (rest, set_year (if 69 <=? val then val else val + 100) t)
      | None => None
      end
  | Conv_m =>
      match get_number 1 12 2 s with
      | Some (val, rest) => Some (rest, set_mon (val - 1) t)
      | None => None
      end
  | Conv_d =>
      match get_number 1 31 2 s with
      | Some (val, rest) => Some (rest, set_mday val t)
      | None => None
      end
  | Conv_H =>
      match get_number 0 23 2 s with
      | Some (val, rest) => Some (rest, set_hour val t)
      | None => None
      end
  | Conv_M =>
      match get_number 0 59 2 s with
      | Some (val, rest) => Some (rest, set_min val t)
      | None => None
      end
  end.

(** [strptime(s, fmt, &t)]: the conversions in order.  The structure is
    updated in place, so the fields converted before a failure keep
    their new values; the flag is the test [result != NULL]. *)
Fixpoint strptime (s : string) (fmt : list conv) (t : tm) : tm * bool :=
  match fmt with
  | [] => (t, true)
  | k :: fmt' =>
      match strptime_conv k s t with
      | Some (rest, t') => strptime rest fmt' t'
      | None => (t, false)
      end
  end.

End Libc.

(** ** boost::posix_time::time_duration *)

Module Boost.

(** A count of microsecond ticks. *)
Record time_duration : Type := Ticks { ticks : Z }.

Definition ticks_per_second : Z := 1000000.

(** [boost::posix_time::seconds(s)] *)
Definition of_seconds (s : Z) : time_duration := Ticks (s * ticks_per_second).

(** [td.hours()]: the whole hours, not reduced. *)
Definition hours (td : time_duration) : Z :=
  Z.quot (ticks td) (3600 * ticks_per_second).
(** [td.minutes()]: the minutes within the hour. *)
Definition minutes (td : time_duration) : Z :=
  Z.rem (Z.quot (ticks td) (60 * ticks_per_second)) 60.
(** [td.seconds()]: the seconds within the minute. *)
Definition seconds (td : time_duration) : Z :=
  Z.rem (Z.quot (ticks td) ticks_per_second) 60.


(** [time_duration(h, m, s)]: if one argument is negative the whole
    duration is. *)
Definition make_duration (h m s : Z) : time_duration :=
  if (h <? 0) || (m <? 0) || (s <? 0)
  then Ticks (((Z.abs h * 3600 + Z.abs m * 60 + Z.abs s) * ticks_per_second) * -1)
  else Ticks ((h * 3600 + m * 60 + s) * ticks_per_second).

(** [td.is_negative()] *)
Definition is_negative (td : time_duration) : bool := ticks td <? 0.

(** [a += b] *)
Definition duration_add (a b : time_duration) : time_duration :=
  Ticks (ticks a + ticks b).

(** [boost::gregorian::date], a regular date (not a special value). *)
Record date : Type := Date { year : Z; month : Z; day : Z }.

(** [to_iso_string(d)]: the year as it is, month and day on two digits. *)
Definition to_iso_string (d : date) : string :=
  (Cxx.dec (year d) ++ Cxx.ostream_setw2 (month d) ++ Cxx.ostream_setw2 (day d))%string.

(** What the formatters observe of a [local_date_time]: the date and the
    time of day of [local_time()], the two offsets of [zone()], and
    [is_dst()]. *)
Record local_date_time : Type := LocalDateTime {
  local_date : date;
  time_of_day : time_duration;
  base_utc_offset : time_duration;
  dst_offset : time_duration;
  is_dst : bool
}.

End Boost.

(** ** smpp/timeformat.cc *)

Module timeformat.
Import Cxx Libc.
Local Open Scope string_scope.
Local Open Scope Z_scope.

(** [std::chrono::seconds]: a count of seconds. *)
Definition seconds : Type := Z.
(** [std::chrono::time_point<system_clock>]: a count of nanoseconds since
    the epoch. *)
Definition time_point : Type := Z.
(** Modelled from the spec: the declaration of [ChronoDatePair] is in the
    header smpp/timeformat.h, which is not among the sources; it is the
    pair of an instant and a duration, built as [ChronoDatePair(tp, td)]
    and read by the tests as [.first] and [.second]. *)
Definition ChronoDatePair : Type := (time_point * seconds)%type.

Definition nanos_per_second : Z := 1000000000.

(** [system_clock::from_time_t] *)
Definition from_time_t (t : Z) : time_point := int64 (t * nanos_per_second).
(** [tp += d] for a duration in seconds *)
Definition tp_add (tp : time_point) (d : seconds) : time_point :=
  int64 (tp + int64 (d * nanos_per_second)).
(** [duration_cast<seconds>] of a difference of time points *)
Definition duration_cast_seconds (ns : Z) : seconds := Z.quot ns nanos_per_second.

(** The compiled pattern
    [^(\d{2})(\d{2})(\d{2})(\d{2})(\d{2})(\d{2})(\d{1})(\d{2})([R+-])$]. *)
Definition pattern : list group :=
  [ Group ClassDigit 2; Group ClassDigit 2; Group ClassDigit 2;
    Group ClassDigit 2; Group ClassDigit 2; Group ClassDigit 2;
    Group ClassDigit 1; Group ClassDigit 2;
    Group (ClassBracket ["R"%char; "+"%char; "-"%char]) 1 ].

Definition dlr_format : list conv := [Conv_y; Conv_m; Conv_d; Conv_H; Conv_M].

Notation "x <- c ;; k" := (bind c (fun x => k))
  (at level 61, c at next level, right associativity).

Definition ParseRelativeTimestamp (m : smatch) : result seconds :=
  yy <- stoi (sub m 1) ;;
  mon <- stoi (sub m 2) ;;
  dd <- stoi (sub m 3) ;;
  hh <- stoi (sub m 4) ;;
  min <- stoi (sub m 5) ;;
  sec <- stoi (sub m 6) ;;
  let total_hours := int32 ((yy * 365 * 24) + (mon * 30 * 24) + (dd * 24) + hh) in
  let total_minutes := int32 ((total_hours * 60) + min) in
  let total_seconds := int64 ((total_minutes * 60) + sec) in
  Ok total_seconds.

(** The [struct tm] that [ParseAbsoluteTimestamp] fills in, before the
    call of [mktime].  [garbage] is the content of the structure before
    the assignments; every modelled field is assigned. *)
Definition absolute_tm (garbage : tm) (m : smatch) : result tm :=
  yy <- stoi (sub m 1) ;;
  mon <- stoi (sub m 2) ;;
  dd <- stoi (sub m 3) ;;
  hh <- stoi (sub m 4) ;;
  min <- stoi (sub m 5) ;;
  sec <- stoi (sub m 6) ;;
  n <- stoi (sub m 8) ;;
  let offset_hours := Z.shiftr n 2 in
  let offset_minutes := int32 (Z.rem n 4 * 15) in
  let t := garbage in
  let t := set_year (int32 (2000 + yy - 1900)) t in
  let t := set_mon (int32 (mon - 1)) t in
  let t := set_mday dd t in
  let t := set_hour hh t in
  let t := set_min min t in
  let t := set_sec sec t in
  let t := set_isdst (-1) t in
  let offset_sign := if compare (sub m 9) "+" =? 0 then -1 else 1 in
  let t := set_gmtoff
             (int32 (offset_sign * ((offset_hours * 60 * 60) + (offset_minutes * 60)))) t in
  Ok t.

Section Environment.

(** The local time zone of the process, in seconds east of UTC. *)
Variable local_offset : Z.
(** The reading of [system_clock::now()] taken by the call. *)
Variable now : time_point.
(** The content of an uninitialised [struct tm] on the stack. *)
Variable garbage : tm.

Definition ParseDlrTimestamp (time : string) : result time_point :=
  let t := garbage in
  let t := set_isdst (-1) t in
  let t := set_sec 0 t in
  let t := fst (strptime time dlr_format t) in
  Ok (from_time_t (mktime local_offset t)).

Definition ParseAbsoluteTimestamp (m : smatch) : result time_point :=
  t <- absolute_tm garbage m ;;
  Ok (from_time_t (mktime local_offset t)).

Definition ParseSmppTimestamp (time : string) : result ChronoDatePair :=
  match regex_match pattern time with
  | Some m =>
      if String.eqb (sub m (size m - 1)) "R" then
        td <- ParseRelativeTimestamp m ;;
        let tp := now in
        let tp := tp_add tp td in
        Ok (tp, td)
      else
        tp <- ParseAbsoluteTimestamp m ;;
        let td := duration_cast_seconds (int64 (tp - now)) in
        Ok (tp, td)
  | None =>
      Throw (SmppException
               ("Timestamp " ++ String dquote time ++ String dquote " has the wrong format."))
  end.

End Environment.

(** [ToSmppTimeString(const time_point &)] *)
Definition ToSmppTimeString_tp (tp : time_point) : string := "hello".

(** [ToSmppTimeString(const std::chrono::seconds &)].  The six fields and
    the suffix are formatted by [sprintf] into [char buf[16]]. *)
Definition ToSmppTimeString (d : seconds) : outcome string :=
  let tmp := d in
  let h := Z.quot tmp 3600 in
  let tmp := int64 (tmp - int64 (h * 3600)) in
  let m := Z.quot tmp 60 in
  let tmp := int64 (tmp - int64 (m * 60)) in
  let s := tmp in
  let yy := int32 (Z.quot (Z.quot h 24) 365) in
  let h := int64 (h - int32 (yy * 24 * 365)) in
  let mon := int32 (Z.quot (Z.quot h 24) 30) in
  let h := int64 (h - int32 (mon * 24 * 30)) in
  let dd := int32 (Z.quot h 24) in
  let h := int64 (h - int32 (dd * 24)) in
  if 99 <? yy then Returns (Throw (SmppException "Time duration overflows"))
  else
    sprintf_buf 16
      (printf_02 yy ++ printf_02 mon ++ printf_02 dd ++ printf_02 h
       ++ printf_02 m ++ printf_02 s ++ "000R").


(** [getTimeString(const local_date_time &)] *)
Definition getTimeString (ldt : Boost.local_date_time) : result string :=
  let td := Boost.time_of_day ldt in
  let offset := Boost.base_utc_offset ldt in
  let offset :=
    if Boost.is_dst ldt then Boost.duration_add offset (Boost.dst_offset ldt)
    else offset in
  let p := if Boost.is_negative offset then "-" else "+" in
  let nn := Z.abs (int32 ((Boost.hours offset * 4) + Z.quot (Boost.minutes offset) 15)) in
  let d := Boost.to_iso_string (Boost.local_date ldt) in
  d6 <- substr d 2 6 ;;
  Ok (d6 ++ ostream_setw2 (Boost.hours td) ++ ostream_setw2 (Boost.minutes td)
      ++ ostream_setw2 (Boost.seconds td) ++ "0" ++ ostream_setw2 nn ++ p).

End timeformat.

(** ** The legacy header src/timeformat.h *)

Module legacy.
Import Cxx Boost.
Local Open Scope string_scope.
Local Open Scope Z_scope.

(** [getTimeString(const time_duration &)] *)
Definition getTimeString (td : time_duration) : string :=
  let totalHours := int32 (hours td) in
  let yy := Z.quot (Z.quot totalHours 24) 365 in
  let totalHours := int32 (totalHours - (yy * 24 * 365)) in
  let mon := Z.quot (Z.quot totalHours 24) 30 in
  let totalHours := int32 (totalHours - (mon * 24 * 30)) in
  let dd := Z.quot totalHours 24 in
  let totalHours := int32 (totalHours - (dd * 24)) in
  ostream_setw2 yy ++ ostream_setw2 mon ++ ostream_setw2 dd ++ ostream_setw2 totalHours
  ++ ostream_setw2 (minutes td) ++ ostream_setw2 (seconds td) ++ "000R".


(** [parseRelativeTimestamp(const smatch &)] *)
Definition parseRelativeTimestamp (m : smatch) : time_duration :=
  let yy := istream_int (sub m 1) in
  let mon := istream_int (sub m 2) in
  let dd := istream_int (sub m 3) in
  let hh := istream_int (sub m 4) in
  let min := istream_int (sub m 5) in
  let sec := istream_int (sub m 6) in
  let totalHours := int32 ((yy * 365 * 24) + (mon * 30 * 24) + (dd * 24) + hh) in
  make_duration totalHours min sec.

(** [getTimeString(const local_time::local_date_time)] *)
Definition getTimeString_ldt (ldt : local_date_time) : result string :=
  let td := time_of_day ldt in
  let offset := if is_dst ldt then dst_offset ldt else base_utc_offset ldt in
  let p := if is_negative offset then "-" else "+" in
  let nn := Z.abs (int32 ((hours offset * 4) + Z.quot (minutes offset) 15)) in
  let d := to_iso_string (local_date ldt) in
  bind (substr d 2 6) (fun d6 =>
  Ok (d6 ++ ostream_setw2 (hours td) ++ ostream_setw2 (minutes td)
      ++ ostream_setw2 (seconds td) ++ "0" ++ ostream_setw2 nn ++ p)).

End legacy.

(** ** test/time_test.cpp *)

Module time_test.
Import Cxx Libc timeformat.
Local Open Scope Z_scope.

(** [MakeTimePoint(yy, mon, mday, hour, min, sec, gmtoff)] *)
Definition MakeTimePoint (local_offset : Z) (garbage : tm)
  (yy mon mday hour min sec gmtoff : Z) : time_point :=
  let t := garbage in
  let t := set_year (int32 (yy - 1900)) t in
  let t := set_mon (int32 (mon - 1)) t in
  let t := set_mday mday t in
  let t := set_hour hour t in
  let t := set_min min t in
  let t := set_sec sec t in
  let t := set_isdst (-1) t in
  let t := set_gmtoff (int64 (gmtoff * 60)) t in
  from_time_t (mktime local_offset t).

End time_test.

(** ** The wire format, as the specification lays it out *)

Module Spec.
Import Cxx Libc timeformat.
Local Open Scope string_scope.
Local Open Scope Z_scope.

(** The character of a decimal digit [d], 0..9. *)
Definition digit_char (d : Z) : ascii := ascii_of_N (Z.to_N (48 + d)).

Definition one_digit (z : Z) : string := String (digit_char z) EmptyString.

(** A two-digit zero-padded field. *)
Definition two_digits (z : Z) : string :=
  String (digit_char (z / 10)) (String (digit_char (z mod 10)) EmptyString).

(** The 16 characters YYMMDDhhmmsstnnp. *)
Definition wire (yy mon dd hh mi ss t nn : Z) (p : ascii) : string :=
  two_digits yy ++ two_digits mon ++ two_digits dd ++ two_digits hh
  ++ two_digits mi ++ two_digits ss ++ one_digit t ++ two_digits nn
  ++ String p EmptyString.

Definition field (z : Z) : Prop := 0 <= z <= 99.
Definition tenth (z : Z) : Prop := 0 <= z <= 9.

Definition is_tag (p : ascii) : bool :=
  Ascii.eqb p "R" || Ascii.eqb p "+" || Ascii.eqb p "-".

(** The anchored grammar: fifteen decimal digits, then one of R, +, -. *)
Definition wire_grammar (s : string) : bool :=
  let cs := list_ascii_of_string s in
  Nat.eqb (List.length cs) 16
  && forallb isdigit (firstn 15 cs)
  && match nth_error cs 15 with
     | Some p => is_tag p
     | None => false
     end.

(** The denormalised duration of the six fields, in seconds. *)
Definition relative_seconds (yy mon dd hh mi ss : Z) : Z :=
  ((yy * 365 * 24 + mon * 30 * 24 + dd * 24 + hh) * 60 + mi) * 60 + ss.

(** The message of the format error for the input [s]. *)
Definition format_error (s : string) : exn :=
  SmppException ("Timestamp " ++ String dquote s ++ String dquote " has the wrong format.").

(** The derived year count of a duration of [d] seconds, [d >= 0]. *)
Definition year_count (d : Z) : Z := d / 3600 / 24 / 365.

(** The denormalised decomposition of a duration of [d] seconds, [d >= 0]:
    seconds and minutes modulo 60, then the hours into years of 365 days,
    months of 30 days, days and hours. *)
Definition denormalize (d : Z) : Z * Z * Z * Z * Z * Z :=
  let ss := d mod 60 in
  let mi := (d / 60) mod 60 in
  let h := d / 3600 in
  let yy := h / (365 * 24) in
  let r := h mod (365 * 24) in
  let mon := r / (30 * 24) in
  let r := r mod (30 * 24) in
  let dd := r / 24 in
  let hh := r mod 24 in
  (yy, mon, dd, hh, mi, ss).

(** The relative wire string of six fields: tenths 0, offset 00, tag R. *)
Definition relative_wire_of (f : Z * Z * Z * Z * Z * Z) : string :=
  let '(yy, mon, dd, hh, mi, ss) := f in wire yy mon dd hh mi ss 0 0 "R".

Definition overflow_error : exn := SmppException "Time duration overflows".

(** The characters that a call has formatted, whether or not the buffer
    could hold them. *)
Definition formatted (o : outcome string) : option string :=
  match o with
  | Returns (Ok s) => Some s
  | Returns (Throw _) => None
  | Overrun s _ => Some s
  end.

(** The signed offset that a sign character and a quarter-hour count
    denote, in seconds. *)
Definition signed_offset (p : ascii) (nn : Z) : Z :=
  (if Ascii.eqb p "-" then -1 else 1)
  * (Z.shiftr nn 2 * 3600 + (nn mod 4) * 15 * 60).

(** The instant that a wall-clock reading at a UTC offset denotes, in
    seconds since the epoch. *)
Definition instant_at_offset (y m d hh mi ss off : Z) : Z :=
  civil_seconds y m d hh mi ss - off.

Definition zero_tm : tm := mkTm 0 0 0 0 0 0 0 0.

End Spec.

(** * Verification *)

Import Cxx Libc Boost timeformat Spec.
Local Open Scope string_scope.
Local Open Scope Z_scope.

(** ** Machine integers in range *)

Lemma int32_small (z : Z) : - 2 ^ 31 <= z < 2 ^ 31 -> int32 z = z.
Proof.
  intros H. unfold int32, wrap.
  change (2 ^ (32 - 1)) with (2 ^ 31). change (2 ^ 32) with (2 * 2 ^ 31).
  rewrite Z.mod_small by lia. lia.
Qed.

Lemma int64_small (z : Z) : - 2 ^ 63 <= z < 2 ^ 63 -> int64 z = z.
Proof.
  intros H. unfold int64, wrap.
  change (2 ^ (64 - 1)) with (2 ^ 63). change (2 ^ 64) with (2 * 2 ^ 63).
  rewrite Z.mod_small by lia. lia.
Qed.

(** ** Checking a decidable property on an initial segment of Z *)

Lemma below_forall (P : Z -> bool) (n : nat) :
  forallb P (map Z.of_nat (seq 0 n)) = true ->
  forall z, 0 <= z < Z.of_nat n -> P z = true.
Proof.
  intros H z Hz. rewrite forallb_forall in H. apply H.
  apply in_map_iff. exists (Z.to_nat z). split; [lia|].
  apply in_seq. lia.
Qed.

(** ** Two-digit fields *)

Lemma two_digits_isdigit (z : Z) :
  field z ->
  isdigit (digit_char (z / 10)) = true /\ isdigit (digit_char (z mod 10)) = true.
Proof.
  intros H. apply andb_true_iff.
  apply (below_forall
           (fun z => isdigit (digit_char (z / 10)) && isdigit (digit_char (z mod 10))) 100).
  - vm_compute. reflexivity.
  - unfold field in H. lia.
Qed.

Lemma one_digit_isdigit (z : Z) : tenth z -> isdigit (digit_char z) = true.
Proof.
  intros H. apply (below_forall (fun z => isdigit (digit_char z)) 10).
  - vm_compute. reflexivity.
  - unfold tenth in H. lia.
Qed.

Lemma stoi_two_digits (z : Z) : field z -> stoi (two_digits z) = Ok z.
Proof.
  intros H.
  pose (P := fun z => match stoi (two_digits z) with
                      | Ok v => v =? z
                      | Throw _ => false
                      end).
  assert (E : P z = true).
  { apply (below_forall P 100); [vm_compute; reflexivity | unfold field in H; lia]. }
  unfold P in E. clear P.
  destruct (stoi (two_digits z)); [|discriminate].
  apply Z.eqb_eq in E. now subst.
Qed.

Lemma printf_02_field (z : Z) : field z -> printf_02 z = two_digits z.
Proof.
  intros H. apply String.eqb_eq.
  apply (below_forall (fun z => String.eqb (printf_02 z) (two_digits z)) 100).
  - vm_compute. reflexivity.
  - unfold field in H. lia.
Qed.

Lemma ostream_setw2_field (z : Z) : field z -> ostream_setw2 z = two_digits z.
Proof.
  intros H. apply String.eqb_eq.
  apply (below_forall (fun z => String.eqb (ostream_setw2 z) (two_digits z)) 100).
  - vm_compute. reflexivity.
  - unfold field in H. lia.
Qed.

(** ** The pattern on a wire string *)

Lemma match_two_digits (z : Z) (r : string) :
  field z -> match_count ClassDigit 2 (two_digits z ++ r) = Some (two_digits z, r).
Proof.
  intros H. destruct (two_digits_isdigit z H) as [H1 H2].
  unfold two_digits. cbn [append match_count class_matches].
  now rewrite H1, H2.
Qed.

Lemma match_one_digit (z : Z) (r : string) :
  tenth z -> match_count ClassDigit 1 (one_digit z ++ r) = Some (one_digit z, r).
Proof.
  intros H. unfold one_digit. cbn [append match_count class_matches].
  now rewrite (one_digit_isdigit z H).
Qed.

Lemma class_tag (p : ascii) :
  class_matches (ClassBracket ["R"%char; "+"%char; "-"%char]) p = is_tag p.
Proof.
  unfold is_tag. cbn [class_matches existsb].
  destruct (Ascii.eqb p "R"), (Ascii.eqb p "+"), (Ascii.eqb p "-"); reflexivity.
Qed.

Lemma match_wire (yy mon dd hh mi ss t nn : Z) (p : ascii) :
  field yy -> field mon -> field dd -> field hh -> field mi -> field ss ->
  tenth t -> field nn -> is_tag p = true ->
  regex_match pattern (wire yy mon dd hh mi ss t nn p)
  = Some [ wire yy mon dd hh mi ss t nn p;
           two_digits yy; two_digits mon; two_digits dd; two_digits hh;
           two_digits mi; two_digits ss; one_digit t; two_digits nn;
           String p EmptyString ].
Proof.
  intros Hyy Hmon Hdd Hhh Hmi Hss Ht Hnn Hp.
  unfold regex_match.
  assert (E : match_groups pattern (wire yy mon dd hh mi ss t nn p)
              = Some [ two_digits yy; two_digits mon; two_digits dd; two_digits hh;
                       two_digits mi; two_digits ss; one_digit t; two_digits nn;
                       String p EmptyString ]).
  { unfold wire, pattern. cbn [match_groups g_class g_count].
    rewrite !match_two_digits by assumption.
    rewrite match_one_digit by assumption.
    rewrite match_two_digits by assumption.
    cbn [match_count]. rewrite class_tag, Hp. reflexivity. }
  now rewrite E.
Qed.

(** ** The pattern accepts exactly the grammar *)

Ltac next_char s :=
  let c := fresh "c" in
  let E := fresh "E" in
  destruct s as [|c s];
  [ reflexivity
  | simpl; destruct (isdigit c) eqn:E;
    [ | cbn [andb]; rewrite ?andb_false_r; reflexivity ] ].

Lemma regex_grammar (s : string) :
  match regex_match pattern s with Some _ => true | None => false end = wire_grammar s.
Proof.
  unfold regex_match, wire_grammar, pattern.
  do 15 (next_char s).
  destruct s as [|p s]; [reflexivity|].
  simpl.
  change (Ascii.eqb p "R" || (Ascii.eqb p "+" || (Ascii.eqb p "-" || false)))
    with (class_matches (ClassBracket ["R"%char; "+"%char; "-"%char]) p).
  rewrite class_tag.
  destruct (is_tag p); [|destruct s; reflexivity].
  destruct s; reflexivity.
Qed.

(** ** Every string of the grammar is a [wire] string *)

Lemma isdigit_digit_char (c : ascii) :
  isdigit c = true -> tenth (code c - 48) /\ c = digit_char (code c - 48).
Proof.
  intros H.
  destruct c as [[] [] [] [] [] [] [] []]; vm_compute in H; try discriminate H;
    (split; [ vm_compute; split; discriminate | reflexivity ]).
Qed.

Lemma digit_pair_field (c1 c2 : ascii) :
  isdigit c1 = true -> isdigit c2 = true ->
  exists z, field z /\ String c1 (String c2 EmptyString) = two_digits z.
Proof.
  intros H1 H2.
  destruct (isdigit_digit_char c1 H1) as [B1 E1].
  destruct (isdigit_digit_char c2 H2) as [B2 E2].
  set (d1 := code c1 - 48) in *. set (d2 := code c2 - 48) in *.
  unfold tenth in B1, B2.
  exists (10 * d1 + d2). split; [unfold field; lia|].
  unfold two_digits.
  replace ((10 * d1 + d2) / 10) with d1 by (apply (Z.div_unique _ _ d1 d2); lia).
  replace ((10 * d1 + d2) mod 10) with d2 by (apply (Z.mod_unique _ _ d1 d2); lia).
  now rewrite <- E1, <- E2.
Qed.

Ltac grammar_char s H :=
  let c := fresh "c" in
  let E := fresh "E" in
  destruct s as [|c s]; [ simpl in H; discriminate H | ];
  simpl in H; destruct (isdigit c) eqn:E;
  [ | exfalso; cbn [andb] in H; rewrite ?andb_false_r in H; discriminate H ].

Lemma wire_grammar_inv (s : string) :
  wire_grammar s = true ->
  exists yy mon dd hh mi ss t nn p,
    field yy /\ field mon /\ field dd /\ field hh /\ field mi /\ field ss
    /\ tenth t /\ field nn /\ is_tag p = true
    /\ s = wire yy mon dd hh mi ss t nn p.
Proof.
  intros H. unfold wire_grammar in H.
  do 15 (grammar_char s H).
  destruct s as [|p s]; [simpl in H; discriminate H|].
  simpl in H.
  destruct s as [|x s]; [|simpl in H; rewrite ?andb_false_r in H; discriminate H].
  simpl in H.
  destruct (digit_pair_field c c0 E E0) as (yy & Fyy & Eyy).
  destruct (digit_pair_field c1 c2 E1 E2) as (mon & Fmon & Emon).
  destruct (digit_pair_field c3 c4 E3 E4) as (dd & Fdd & Edd).
  destruct (digit_pair_field c5 c6 E5 E6) as (hh & Fhh & Ehh).
  destruct (digit_pair_field c7 c8 E7 E8) as (mi & Fmi & Emi).
  destruct (digit_pair_field c9 c10 E9 E10) as (ss & Fss & Ess).
  destruct (isdigit_digit_char c11 E11) as (Ft & Et).
  destruct (digit_pair_field c12 c13 E12 E13) as (nn & Fnn & Enn).
  exists yy, mon, dd, hh, mi, ss, (code c11 - 48), nn, p.
  repeat (split; [assumption|]).
  unfold wire. rewrite <- Eyy, <- Emon, <- Edd, <- Ehh, <- Emi, <- Ess, <- Enn.
  unfold one_digit. rewrite <- Et. cbn [append]. reflexivity.
Qed.

(** A [wire] string is in the grammar. *)
Lemma wire_in_grammar (yy mon dd hh mi ss t nn : Z) (p : ascii) :
  field yy -> field mon -> field dd -> field hh -> field mi -> field ss ->
  tenth t -> field nn -> is_tag p = true ->
  wire_grammar (wire yy mon dd hh mi ss t nn p) = true.
Proof.
  intros. rewrite <- regex_grammar. now rewrite match_wire.
Qed.

(** ** Parsing a wire string *)

Lemma is_tag_cases (p : ascii) :
  is_tag p = true -> p = "R"%char \/ p = "+"%char \/ p = "-"%char.
Proof.
  unfold is_tag. intros H.
  apply orb_true_iff in H. destruct H as [H|H].
  - apply orb_true_iff in H. destruct H as [H|H]; apply Ascii.eqb_eq in H; auto.
  - apply Ascii.eqb_eq in H. auto.
Qed.

Lemma relative_wire (m0 : string) (yy mon dd hh mi ss : Z) (t nn p : string) :
  field yy -> field mon -> field dd -> field hh -> field mi -> field ss ->
  ParseRelativeTimestamp
    [ m0; two_digits yy; two_digits mon; two_digits dd; two_digits hh;
      two_digits mi; two_digits ss; t; nn; p ]
  = Ok (relative_seconds yy mon dd hh mi ss).
Proof.
  intros Hyy Hmon Hdd Hhh Hmi Hss.
  unfold ParseRelativeTimestamp. cbn [sub nth].
  rewrite !stoi_two_digits by assumption. cbn [bind].
  unfold field in *. unfold relative_seconds.
  rewrite (int32_small (yy * 365 * 24 + mon * 30 * 24 + dd * 24 + hh)) by lia.
  rewrite int32_small by lia.
  rewrite int64_small by lia.
  reflexivity.
Qed.

Lemma parse_relative_wire (tz now : Z) (g : tm) (yy mon dd hh mi ss t nn : Z) :
  field yy -> field mon -> field dd -> field hh -> field mi -> field ss ->
  tenth t -> field nn ->
  ParseSmppTimestamp tz now g (wire yy mon dd hh mi ss t nn "R")
  = Ok (tp_add now (relative_seconds yy mon dd hh mi ss),
        relative_seconds yy mon dd hh mi ss).
Proof.
  intros Hyy Hmon Hdd Hhh Hmi Hss Ht Hnn.
  unfold ParseSmppTimestamp.
  rewrite match_wire by (assumption || reflexivity).
  cbn [size List.length Nat.sub sub nth].
  change (String.eqb (String "R" EmptyString) "R") with true. cbv iota.
  rewrite relative_wire by assumption.
  reflexivity.
Qed.

(** The offset that [ParseAbsoluteTimestamp] stores in [tm_gmtoff]. *)
Lemma absolute_tm_wire (g : tm) (m0 : string) (yy mon dd hh mi ss nn : Z) (t : string) (p : ascii) :
  field yy -> field mon -> field dd -> field hh -> field mi -> field ss -> field nn ->
  absolute_tm g
    [ m0; two_digits yy; two_digits mon; two_digits dd; two_digits hh;
      two_digits mi; two_digits ss; t; two_digits nn; String p EmptyString ]
  = Ok (mkTm ss mi hh dd (mon - 1) (100 + yy) (-1)
          ((if Ascii.eqb p "+" then -1 else 1)
           * (Z.shiftr nn 2 * 3600 + (nn mod 4) * 15 * 60))).
Proof.
  intros Hyy Hmon Hdd Hhh Hmi Hss Hnn.
  unfold absolute_tm. cbn [sub nth].
  rewrite !stoi_two_digits by assumption. cbn [bind].
  unfold field in *.
  assert (Hs : Z.shiftr nn 2 = nn / 4) by (rewrite Z.shiftr_div_pow2 by lia; reflexivity).
  assert (Hr : Z.rem nn 4 = nn mod 4) by (apply Z.rem_mod_nonneg; lia).
  assert (Hq : 0 <= nn / 4 <= 24) by (Z.div_mod_to_equations; lia).
  assert (Hm : 0 <= nn mod 4 < 4) by (apply Z.mod_pos_bound; lia).
  assert (Hc : (compare (String p EmptyString) "+" =? 0) = Ascii.eqb p "+").
  { unfold compare. cbn [String.compare].
    destruct (Ascii.compare p "+") eqn:C.
    - apply Ascii.compare_eq_iff in C. subst. reflexivity.
    - destruct (Ascii.eqb_spec p "+") as [->|]; [discriminate C | reflexivity].
    - destruct (Ascii.eqb_spec p "+") as [->|]; [discriminate C | reflexivity]. }
  rewrite Hc, Hs, Hr.
  rewrite (int32_small (2000 + yy - 1900)) by lia.
  rewrite (int32_small (mon - 1)) by lia.
  rewrite (int32_small (nn mod 4 * 15)) by lia.
  rewrite int32_small by (destruct (Ascii.eqb p "+"); lia).
  cbv [set_gmtoff set_isdst set_sec set_min set_hour set_mday set_mon set_year
       tm_sec tm_min tm_hour tm_mday tm_mon tm_year tm_isdst tm_gmtoff].
  do 2 f_equal; lia.
Qed.

Lemma parse_absolute_wire (tz now : Z) (g : tm) (yy mon dd hh mi ss t nn : Z) (p : ascii) :
  field yy -> field mon -> field dd -> field hh -> field mi -> field ss ->
  tenth t -> field nn -> p = "+"%char \/ p = "-"%char ->
  let tp := from_time_t
              (mktime tz (mkTm ss mi hh dd (mon - 1) (100 + yy) (-1)
                            ((if Ascii.eqb p "+" then -1 else 1)
                             * (Z.shiftr nn 2 * 3600 + (nn mod 4) * 15 * 60)))) in
  ParseSmppTimestamp tz now g (wire yy mon dd hh mi ss t nn p)
  = Ok (tp, duration_cast_seconds (int64 (tp - now))).
Proof.
  intros Hyy Hmon Hdd Hhh Hmi Hss Ht Hnn Hp tp.
  unfold ParseSmppTimestamp.
  rewrite match_wire by (assumption || (destruct Hp; subst; reflexivity)).
  cbn [size List.length Nat.sub sub nth].
  assert (E : String.eqb (String p EmptyString) "R" = false)
    by (destruct Hp; subst; reflexivity).
  rewrite E.
  unfold ParseAbsoluteTimestamp.
  change (nth 9 ?l EmptyString) with (sub l 9).
  rewrite absolute_tm_wire by assumption.
  reflexivity.
Qed.

(** ** The relative resolver *)

(** C2: a relative wire string with fields YY MM DD hh mm ss parses to
    the duration ((YY*365*24 + MM*30*24 + DD*24 + hh)*60 + mm)*60 + ss
    seconds, and to the instant that lies this duration after the clock
    reading; 991210233429000R gives 876143 h 34 min 29 s and
    000002000000000R gives 48 h. *)
Theorem C2_relative_duration (tz now : Z) (g : tm) :
  (forall yy mon dd hh mi ss t nn : Z,
      field yy -> field mon -> field dd -> field hh -> field mi -> field ss ->
      tenth t -> field nn ->
      ParseSmppTimestamp tz now g (wire yy mon dd hh mi ss t nn "R")
      = Ok (tp_add now (((yy * 365 * 24 + mon * 30 * 24 + dd * 24 + hh) * 60 + mi) * 60 + ss),
            ((yy * 365 * 24 + mon * 30 * 24 + dd * 24 + hh) * 60 + mi) * 60 + ss))
  /\ ParseSmppTimestamp tz now g "991210233429000R"
     = Ok (tp_add now (876143 * 3600 + 34 * 60 + 29), 876143 * 3600 + 34 * 60 + 29)
  /\ ParseSmppTimestamp tz now g "000002000000000R"
     = Ok (tp_add now (48 * 3600), 48 * 3600).
Proof.
  split; [|split].
  - intros. now apply parse_relative_wire.
  - change "991210233429000R" with (wire 99 12 10 23 34 29 0 0 "R").
    rewrite parse_relative_wire by (unfold field, tenth; lia).
    reflexivity.
  - change "000002000000000R" with (wire 0 0 2 0 0 0 0 0 "R").
    rewrite parse_relative_wire by (unfold field, tenth; lia).
    reflexivity.
Qed.

Lemma C2_relative_duration_witness :
  ParseSmppTimestamp 3600 1000000000 zero_tm (wire 1 2 3 4 5 6 7 8 "R")
  = Ok (tp_add 1000000000 (((1 * 365 * 24 + 2 * 30 * 24 + 3 * 24 + 4) * 60 + 5) * 60 + 6),
        ((1 * 365 * 24 + 2 * 30 * 24 + 3 * 24 + 4) * 60 + 5) * 60 + 6).
Proof.
  apply (proj1 (C2_relative_duration 3600 1000000000 zero_tm));
    unfold field, tenth; lia.
Defined.

(** ** The pattern matcher *)

(** C5: [ParseSmppTimestamp] returns a value exactly on the strings of
    the anchored grammar (fifteen digits and one of R, +, -) and throws
    the format error that quotes the input on every other string; the
    four malformed inputs of the test suite are rejected. *)
Theorem C5_grammar_or_format_error (tz now : Z) (g : tm) :
  (forall s : string,
      match ParseSmppTimestamp tz now g s with
      | Ok _ => wire_grammar s = true
      | Throw e => wire_grammar s = false /\ e = format_error s
      end)
  /\ ParseSmppTimestamp tz now g "11101910301110+" = Throw (format_error "11101910301110+")
  /\ ParseSmppTimestamp tz now g "000002000000000r" = Throw (format_error "000002000000000r")
  /\ ParseSmppTimestamp tz now g "0000020000AA000R" = Throw (format_error "0000020000AA000R")
  /\ ParseSmppTimestamp tz now g EmptyString = Throw (format_error EmptyString).
Proof.
  split; [|repeat split; reflexivity].
  intros s. destruct (wire_grammar s) eqn:G.
  - destruct (wire_grammar_inv s G)
      as (yy & mon & dd & hh & mi & ss & t & nn & p
          & Hyy & Hmon & Hdd & Hhh & Hmi & Hss & Ht & Hnn & Hp & ->).
    destruct (is_tag_cases p Hp) as [->|Hs].
    + now rewrite parse_relative_wire.
    + now rewrite parse_absolute_wire.
  - pose proof (regex_grammar s) as R. rewrite G in R.
    unfold ParseSmppTimestamp.
    destruct (regex_match pattern s); [discriminate R|].
    split; reflexivity.
Qed.

(** C10: two relative wire strings with the same six digit pairs parse
    to the same result, whatever their tenths digit and offset field. *)
Theorem C10_tenths_and_offset_ignored (tz now : Z) (g : tm) (s1 s2 : string) :
  wire_grammar s1 = true -> wire_grammar s2 = true ->
  String.get 15 s1 = Some "R"%char -> String.get 15 s2 = Some "R"%char ->
  substring 0 12 s1 = substring 0 12 s2 ->
  exists tp d,
    ParseSmppTimestamp tz now g s1 = Ok (tp, d)
    /\ ParseSmppTimestamp tz now g s2 = Ok (tp, d).
Proof.
  intros G1 G2 T1 T2 E.
  destruct (wire_grammar_inv s1 G1)
    as (yy & mon & dd & hh & mi & ss & t & nn & p
        & Hyy & Hmon & Hdd & Hhh & Hmi & Hss & Ht & Hnn & Hp & ->).
  destruct (wire_grammar_inv s2 G2)
    as (yy' & mon' & dd' & hh' & mi' & ss' & t' & nn' & p'
        & Hyy' & Hmon' & Hdd' & Hhh' & Hmi' & Hss' & Ht' & Hnn' & Hp' & ->).
  unfold wire in T1, T2, E. unfold two_digits, one_digit in T1, T2.
  cbn [append String.get] in T1, T2.
  injection T1 as ->. injection T2 as ->.
  assert (F : forall a b : Z, field a -> field b -> two_digits a = two_digits b -> a = b).
  { intros a b Ha Hb Hab.
    pose proof (stoi_two_digits a Ha) as Sa. rewrite Hab, (stoi_two_digits b Hb) in Sa.
    now injection Sa. }
  assert (Q : two_digits yy = two_digits yy' /\ two_digits mon = two_digits mon'
              /\ two_digits dd = two_digits dd' /\ two_digits hh = two_digits hh'
              /\ two_digits mi = two_digits mi' /\ two_digits ss = two_digits ss').
  { unfold two_digits, one_digit in *. cbn [append substring] in E.
    injection E as -> -> -> -> -> -> -> -> -> -> -> ->. repeat split. }
  destruct Q as (Qyy & Qmon & Qdd & Qhh & Qmi & Qss).
  apply F in Qyy, Qmon, Qdd, Qhh, Qmi, Qss; try assumption. subst.
  eexists. eexists.
  rewrite !parse_relative_wire by assumption. split; reflexivity.
Qed.

Lemma C10_tenths_and_offset_ignored_witness :
  exists tp d,
    ParseSmppTimestamp 0 0 zero_tm "000002000000000R" = Ok (tp, d)
    /\ ParseSmppTimestamp 0 0 zero_tm "000002000000712R" = Ok (tp, d).
Proof.
  apply (C10_tenths_and_offset_ignored 0 0 zero_tm
           "000002000000000R" "000002000000712R"); reflexivity.
Defined.

(** ** The duration formatter *)

Ltac zdiv := Z.to_euclidean_division_equations; lia.

(** The six fields of a duration whose year count is at most 99 fit two
    digits and recompose to the duration. *)
Lemma denormalize_fields (d : Z) :
  0 <= d -> year_count d <= 99 ->
  let '(yy, mon, dd, hh, mi, ss) := denormalize d in
  (0 <= yy <= 99 /\ 0 <= mon <= 12 /\ 0 <= dd <= 29
   /\ 0 <= hh <= 23 /\ 0 <= mi <= 59 /\ 0 <= ss <= 59)
  /\ relative_seconds yy mon dd hh mi ss = d.
Proof.
  intros Hd Hy. unfold year_count in Hy. unfold denormalize, relative_seconds.
  change (365 * 24) with 8760. change (30 * 24) with 720.
  zdiv.
Qed.

(** The year count that the formatter compares with 99. *)
Lemma formatter_year (d : Z) :
  0 <= d -> year_count d < 2 ^ 31 ->
  int32 (Z.quot (Z.quot (Z.quot d 3600) 24) 365) = year_count d.
Proof.
  intros Hd Hy. unfold year_count in *.
  rewrite (Z.quot_div_nonneg d 3600) by lia.
  rewrite (Z.quot_div_nonneg (d / 3600) 24) by zdiv.
  rewrite (Z.quot_div_nonneg (d / 3600 / 24) 365) by zdiv.
  apply int32_small. zdiv.
Qed.

Lemma formatter_in_range (d : Z) :
  0 <= d -> year_count d <= 99 ->
  ToSmppTimeString d = Overrun (relative_wire_of (denormalize d)) 16.
Proof.
  intros Hd Hy.
  pose proof (denormalize_fields d Hd Hy) as F.
  unfold year_count in Hy. unfold ToSmppTimeString.
  rewrite (Z.quot_div_nonneg d 3600) by lia.
  assert (B : 0 <= d / 3600 < 876000) by zdiv.
  rewrite (int64_small (d / 3600 * 3600)) by zdiv.
  rewrite (int64_small (d - d / 3600 * 3600)) by zdiv.
  rewrite (Z.quot_div_nonneg (d - d / 3600 * 3600) 60) by zdiv.
  rewrite (int64_small ((d - d / 3600 * 3600) / 60 * 60)) by zdiv.
  rewrite (int64_small (d - d / 3600 * 3600 - (d - d / 3600 * 3600) / 60 * 60)) by zdiv.
  rewrite (Z.quot_div_nonneg (d / 3600) 24) by lia.
  rewrite (Z.quot_div_nonneg (d / 3600 / 24) 365) by zdiv.
  rewrite (int32_small (d / 3600 / 24 / 365)) by zdiv.
  rewrite (int32_small (d / 3600 / 24 / 365 * 24 * 365)) by zdiv.
  set (h1 := d / 3600 - d / 3600 / 24 / 365 * 24 * 365).
  assert (B1 : 0 <= h1 < 8760) by (unfold h1; zdiv).
  rewrite (int64_small h1) by lia.
  rewrite (Z.quot_div_nonneg h1 24) by lia.
  rewrite (Z.quot_div_nonneg (h1 / 24) 30) by zdiv.
  rewrite (int32_small (h1 / 24 / 30)) by zdiv.
  rewrite (int32_small (h1 / 24 / 30 * 24 * 30)) by zdiv.
  set (h2 := h1 - h1 / 24 / 30 * 24 * 30).
  assert (B2 : 0 <= h2 < 720) by (unfold h2; zdiv).
  rewrite (int64_small h2) by lia.
  rewrite (Z.quot_div_nonneg h2 24) by lia.
  rewrite (int32_small (h2 / 24)) by zdiv.
  rewrite (int32_small (h2 / 24 * 24)) by zdiv.
  set (h3 := h2 - h2 / 24 * 24).
  assert (B3 : 0 <= h3 < 24) by (unfold h3; zdiv).
  rewrite (int64_small h3) by lia.
  replace (99 <? d / 3600 / 24 / 365) with false by (symmetry; apply Z.ltb_ge; lia).
  unfold denormalize in *. unfold relative_wire_of.
  change (365 * 24) with 8760 in *. change (30 * 24) with 720 in *.
  destruct F as [(Fy & Fm & Fd & Fh & Fi & Fs) _].
  replace (d / 3600 / 24 / 365) with (d / 3600 / 8760) by zdiv.
  replace (h1 / 24 / 30) with ((d / 3600) mod 8760 / 720) by (unfold h1; zdiv).
  replace (h2 / 24) with (((d / 3600) mod 8760) mod 720 / 24) by (unfold h2, h1; zdiv).
  replace h3 with ((((d / 3600) mod 8760) mod 720) mod 24) by (unfold h3, h2, h1; zdiv).
  replace ((d - d / 3600 * 3600) / 60) with ((d / 60) mod 60) by zdiv.
  replace (d - d / 3600 * 3600 - (d / 60) mod 60 * 60) with (d mod 60) by zdiv.
  rewrite !printf_02_field by (unfold field; lia).
  reflexivity.
Qed.

Lemma legacy_in_range (d : Z) :
  0 <= d -> year_count d <= 99 ->
  legacy.getTimeString (of_seconds d) = relative_wire_of (denormalize d).
Proof.
  intros Hd Hy.
  pose proof (denormalize_fields d Hd Hy) as F.
  unfold year_count in Hy.
  unfold legacy.getTimeString, Boost.hours, Boost.minutes, Boost.seconds, of_seconds,
    ticks_per_second.
  cbn [ticks].
  change (3600 * 1000000) with 3600000000. change (60 * 1000000) with 60000000.
  replace (Z.quot (d * 1000000) 3600000000) with (d / 3600) by zdiv.
  replace (Z.rem (Z.quot (d * 1000000) 60000000) 60) with ((d / 60) mod 60) by zdiv.
  replace (Z.rem (Z.quot (d * 1000000) 1000000) 60) with (d mod 60) by zdiv.
  assert (B : 0 <= d / 3600 < 876000) by zdiv.
  rewrite (int32_small (d / 3600)) by lia.
  rewrite (Z.quot_div_nonneg (d / 3600) 24) by lia.
  rewrite (Z.quot_div_nonneg (d / 3600 / 24) 365) by zdiv.
  set (h1 := d / 3600 - d / 3600 / 24 / 365 * 24 * 365).
  assert (B1 : 0 <= h1 < 8760) by (unfold h1; zdiv).
  rewrite (int32_small h1) by lia.
  rewrite (Z.quot_div_nonneg h1 24) by lia.
  rewrite (Z.quot_div_nonneg (h1 / 24) 30) by zdiv.
  set (h2 := h1 - h1 / 24 / 30 * 24 * 30).
  assert (B2 : 0 <= h2 < 720) by (unfold h2; zdiv).
  rewrite (int32_small h2) by lia.
  rewrite (Z.quot_div_nonneg h2 24) by lia.
  set (h3 := h2 - h2 / 24 * 24).
  assert (B3 : 0 <= h3 < 24) by (unfold h3; zdiv).
  rewrite (int32_small h3) by lia.
  unfold denormalize in *. unfold relative_wire_of.
  change (365 * 24) with 8760 in *. change (30 * 24) with 720 in *.
  destruct F as [(Fy & Fm & Fd & Fh & Fi & Fs) _].
  replace (d / 3600 / 24 / 365) with (d / 3600 / 8760) by zdiv.
  replace (h1 / 24 / 30) with ((d / 3600) mod 8760 / 720) by (unfold h1; zdiv).
  replace (h2 / 24) with (((d / 3600) mod 8760) mod 720 / 24) by (unfold h2, h1; zdiv).
  replace h3 with ((((d / 3600) mod 8760) mod 720) mod 24) by (unfold h3, h2, h1; zdiv).
  rewrite !ostream_setw2_field by (unfold field; lia).
  reflexivity.
Qed.

Lemma wire_length (yy mon dd hh mi ss t nn : Z) (p : ascii) :
  String.length (wire yy mon dd hh mi ss t nn p) = 16%nat.
Proof. reflexivity. Qed.

(** C3, amended: for every non-negative duration whose derived year count
    is at most 99, parsing the string that the formatter has formatted
    gives the duration back (and the instant this duration after the
    clock reading). *)
Theorem C3_roundtrip_nonnegative (tz now : Z) (g : tm) (d : Z) :
  0 <= d -> year_count d <= 99 ->
  exists s,
    formatted (ToSmppTimeString d) = Some s
    /\ ParseSmppTimestamp tz now g s = Ok (tp_add now d, d).
Proof.
  intros Hd Hy.
  exists (relative_wire_of (denormalize d)).
  split; [now rewrite formatter_in_range|].
  pose proof (denormalize_fields d Hd Hy) as F.
  destruct (denormalize d) as [[[[[yy mon] dd] hh] mi] ss].
  destruct F as [(Fy & Fm & Fd & Fh & Fi & Fs) R].
  unfold relative_wire_of.
  rewrite parse_relative_wire by (unfold field, tenth; lia).
  now rewrite R.
Qed.

Lemma C3_roundtrip_nonnegative_witness :
  exists s,
    formatted (ToSmppTimeString 172800) = Some s
    /\ ParseSmppTimestamp 0 0 zero_tm s = Ok (tp_add 0 172800, 172800).
Proof.
  apply (C3_roundtrip_nonnegative 0 0 zero_tm 172800);
    [lia | vm_compute; discriminate].
Defined.

(** C3 as stated fails on a negative duration: one second before zero
    has a year count below 99, is formatted with a minus sign in the
    seconds field, and that string is rejected by the parser. *)
Lemma C3_negative_duration_counterexample :
  year_count (-1) <= 99
  /\ formatted (ToSmppTimeString (-1)) = Some "0000000000-1000R"
  /\ ParseSmppTimestamp 0 0 zero_tm "0000000000-1000R"
     = Throw (format_error "0000000000-1000R")
  /\ ~ (exists s tp,
           formatted (ToSmppTimeString (-1)) = Some s
           /\ ParseSmppTimestamp 0 0 zero_tm s = Ok (tp, -1)).
Proof.
  split; [vm_compute; discriminate|].
  split; [reflexivity|].
  split; [reflexivity|].
  intros (s & tp & F & P).
  change (formatted (ToSmppTimeString (-1))) with (Some "0000000000-1000R") in F.
  injection F as <-.
  change (ParseSmppTimestamp 0 0 zero_tm "0000000000-1000R")
    with (@Throw ChronoDatePair (format_error "0000000000-1000R")) in P.
  discriminate P.
Qed.

(** C4, amended: for every non-negative duration whose year count fits
    an [int], the formatter throws the overflow error exactly when the
    year count exceeds 99, and otherwise formats the two-digit fields of
    the denormalised decomposition followed by 000R; for
    875043 h 34 min 29 s it formats 991025033429000R and
    876143 h 34 min 29 s overflows. *)
Theorem C4_overflow_iff_year_count (d : Z) :
  0 <= d -> year_count d < 2 ^ 31 ->
  (ToSmppTimeString d = Returns (Throw overflow_error) <-> 99 < year_count d)
  /\ (year_count d <= 99 ->
      formatted (ToSmppTimeString d) = Some (relative_wire_of (denormalize d))
      /\ let '(yy, mon, dd, hh, mi, ss) := denormalize d in
         field yy /\ field mon /\ field dd /\ field hh /\ field mi /\ field ss)
  /\ formatted (ToSmppTimeString (875043 * 3600 + 34 * 60 + 29))
     = Some "991025033429000R"
  /\ ToSmppTimeString (876143 * 3600 + 34 * 60 + 29) = Returns (Throw overflow_error).
Proof.
  intros Hd Hy. split; [|split; [|split; reflexivity]].
  - split.
    + intros T. destruct (Z.lt_ge_cases 99 (year_count d)) as [L|L]; [exact L|].
      rewrite formatter_in_range in T by assumption. discriminate T.
    + intros L. unfold ToSmppTimeString. cbv zeta.
      rewrite formatter_year by assumption.
      apply Z.ltb_lt in L. now rewrite L.
  - intros L. split; [now rewrite formatter_in_range|].
    pose proof (denormalize_fields d Hd L) as F.
    destruct (denormalize d) as [[[[[yy mon] dd] hh] mi] ss].
    unfold field. lia.
Qed.

Lemma C4_overflow_iff_year_count_witness :
  formatted (ToSmppTimeString 172800) = Some (relative_wire_of (denormalize 172800)).
Proof.
  apply (C4_overflow_iff_year_count 172800);
    [lia | vm_compute; reflexivity | vm_compute; discriminate].
Defined.

(** C4 as stated fails outside that range: a negative duration is
    formatted with a minus sign, so the result is no string of two-digit
    fields; and a year count of 2^32 is truncated to the [int] 0, so the
    overflow error is not thrown. *)
Lemma C4_range_counterexample :
  (year_count (-1) <= 99
   /\ formatted (ToSmppTimeString (-1)) = Some "0000000000-1000R"
   /\ wire_grammar "0000000000-1000R" = false)
  /\ (99 < year_count (2 ^ 32 * 8760 * 3600)
      /\ ToSmppTimeString (2 ^ 32 * 8760 * 3600) <> Returns (Throw overflow_error)).
Proof.
  repeat split; try reflexivity.
  - vm_compute; discriminate.
  - vm_compute; discriminate.
Qed.

(** ** The legacy formatter *)

(** C9, as the code has it: on every non-negative duration whose derived
    year count is at most 99 the legacy formatter returns a string of 16
    characters; the chrono formatter formats the same 16 characters, but
    into a buffer of 16 bytes that has no room for the terminating NUL,
    so it does not return them. *)
Theorem C9_chrono_formatter_overruns (d : Z) :
  0 <= d -> year_count d <= 99 ->
  ToSmppTimeString d = Overrun (legacy.getTimeString (of_seconds d)) 16
  /\ String.length (legacy.getTimeString (of_seconds d)) = 16%nat.
Proof.
  intros Hd Hy.
  rewrite legacy_in_range, formatter_in_range by assumption.
  split; [reflexivity|].
  destruct (denormalize d) as [[[[[yy mon] dd] hh] mi] ss].
  apply wire_length.
Qed.

Lemma C9_chrono_formatter_overruns_witness :
  ToSmppTimeString 172800 = Overrun (legacy.getTimeString (of_seconds 172800)) 16
  /\ String.length (legacy.getTimeString (of_seconds 172800)) = 16%nat.
Proof.
  apply (C9_chrono_formatter_overruns 172800); [lia | vm_compute; discriminate].
Defined.

(** The first duration of the test suite, 48 hours. *)
Example formatter_48_hours :
  ToSmppTimeString (48 * 3600) = Overrun "000002000000000R" 16
  /\ legacy.getTimeString (of_seconds (48 * 3600)) = "000002000000000R".
Proof. split; reflexivity. Qed.

(** ** The absolute resolver *)

Lemma mktime_ignores_gmtoff (tz v : Z) (t : tm) :
  mktime tz (set_gmtoff v t) = mktime tz t.
Proof. reflexivity. Qed.

(** C1, as the code has it: on every absolute wire string the offset
    stored in [tm_gmtoff] is the negation of the signed offset of the
    specification: minus the magnitude for the tag + and plus the
    magnitude for the tag -. *)
Theorem C1_gmtoff_sign_inverted
  (g : tm) (yy mon dd hh mi ss t nn : Z) (p : ascii) :
  field yy -> field mon -> field dd -> field hh -> field mi -> field ss ->
  tenth t -> field nn -> p = "+"%char \/ p = "-"%char ->
  exists m r,
    regex_match pattern (wire yy mon dd hh mi ss t nn p) = Some m
    /\ absolute_tm g m = Ok r
    /\ tm_gmtoff r = - signed_offset p nn.
Proof.
  intros Hyy Hmon Hdd Hhh Hmi Hss Ht Hnn Hp.
  eexists. eexists.
  split; [apply match_wire; try assumption; destruct Hp; subst; reflexivity|].
  split; [apply absolute_tm_wire; assumption|].
  cbn [tm_gmtoff]. unfold signed_offset.
  destruct Hp; subst; cbn [Ascii.eqb Bool.eqb]; lia.
Qed.

Lemma C1_gmtoff_sign_inverted_witness :
  exists m r,
    regex_match pattern (wire 11 10 19 8 0 0 0 2 "+") = Some m
    /\ absolute_tm zero_tm m = Ok r
    /\ tm_gmtoff r = - signed_offset "+" 2.
Proof.
  apply (C1_gmtoff_sign_inverted zero_tm 11 10 19 8 0 0 0 2 "+");
    try (unfold field, tenth; lia).
  left; reflexivity.
Defined.

(** The first absolute string of the test suite: the tag is + and the
    offset two quarter hours, the stored offset is -1800 seconds. *)
Example absolute_tm_plus_two_quarters (g : tm) :
  wire 11 10 19 8 0 0 0 2 "+" = "111019080000002+"
  /\ signed_offset "+" 2 = 1800
  /\ match regex_match pattern "111019080000002+" with
     | Some m => absolute_tm g m = Ok (mkTm 0 0 8 19 9 111 (-1) (-1800))
     | None => False
     end.
Proof. repeat split. Qed.

(** The resolved instant of an absolute wire string does not depend on
    its offset field or its sign. *)
Lemma absolute_offset_ignored
  (tz now : Z) (g : tm) (yy mon dd hh mi ss t nn t' nn' : Z) (p p' : ascii) :
  field yy -> field mon -> field dd -> field hh -> field mi -> field ss ->
  tenth t -> field nn -> p = "+"%char \/ p = "-"%char ->
  tenth t' -> field nn' -> p' = "+"%char \/ p' = "-"%char ->
  ParseSmppTimestamp tz now g (wire yy mon dd hh mi ss t nn p)
  = ParseSmppTimestamp tz now g (wire yy mon dd hh mi ss t' nn' p').
Proof.
  intros. rewrite !parse_absolute_wire by assumption. reflexivity.
Qed.

(** C8, as the code has it: 08:00:00 at UTC+00:00 and 09:00:00 at
    UTC+01:00 on 2011-10-19 are the same instant, and the parser
    resolves the two strings to instants one hour apart. *)
Theorem C8_equivalent_offsets_resolve_apart (tz now : Z) (g : tm) :
  - 86400 <= tz <= 86400 ->
  instant_at_offset 2011 10 19 8 0 0 (signed_offset "+" 0)
  = instant_at_offset 2011 10 19 9 0 0 (signed_offset "+" 4)
  /\ exists tp1 d1 tp2 d2,
       ParseSmppTimestamp tz now g "111019080000000+" = Ok (tp1, d1)
       /\ ParseSmppTimestamp tz now g "111019090000004+" = Ok (tp2, d2)
       /\ tp2 = tp1 + 3600 * nanos_per_second.
Proof.
  intros Htz. split; [reflexivity|].
  change "111019080000000+" with (wire 11 10 19 8 0 0 0 0 "+").
  change "111019090000004+" with (wire 11 10 19 9 0 0 0 4 "+").
  rewrite !parse_absolute_wire by (try (unfold field, tenth; lia); left; reflexivity).
  do 4 eexists. split; [reflexivity|]. split; [reflexivity|].
  unfold from_time_t, mktime, nanos_per_second. cbn [tm_sec tm_min tm_hour tm_mday tm_mon tm_year].
  set (c1 := civil_seconds _ _ 19 8 0 0). set (c2 := civil_seconds _ _ 19 9 0 0).
  vm_compute in c1, c2. subst c1 c2.
  rewrite !int64_small by lia. lia.
Qed.

Lemma C8_equivalent_offsets_resolve_apart_witness :
  instant_at_offset 2011 10 19 8 0 0 (signed_offset "+" 0)
  = instant_at_offset 2011 10 19 9 0 0 (signed_offset "+" 4)
  /\ exists tp1 d1 tp2 d2,
       ParseSmppTimestamp 0 0 zero_tm "111019080000000+" = Ok (tp1, d1)
       /\ ParseSmppTimestamp 0 0 zero_tm "111019090000004+" = Ok (tp2, d2)
       /\ tp2 = tp1 + 3600 * nanos_per_second.
Proof.
  apply (C8_equivalent_offsets_resolve_apart 0 0 zero_tm). lia.
Defined.

(** ** The instant formatter *)

(** C7, as the code has it: the formatter of an instant returns the five
    characters of a placeholder, whatever the instant. *)
Theorem C7_instant_formatter_placeholder (tp : time_point) :
  ToSmppTimeString_tp tp = "hello"
  /\ String.length (ToSmppTimeString_tp tp) = 5%nat
  /\ wire_grammar (ToSmppTimeString_tp tp) = false.
Proof. repeat split. Qed.

(** ** The delivery-receipt parser *)

Lemma two_digits_codes (z : Z) :
  field z ->
  code (digit_char (z / 10)) - 48 = z / 10
  /\ code (digit_char (z mod 10)) - 48 = z mod 10
  /\ isspace (digit_char (z / 10)) = false.
Proof.
  intros H.
  pose (P := fun z => (code (digit_char (z / 10)) - 48 =? z / 10)
                      && (code (digit_char (z mod 10)) - 48 =? z mod 10)
                      && negb (isspace (digit_char (z / 10)))).
  assert (E : P z = true).
  { apply (below_forall P 100); [vm_compute; reflexivity | unfold field in H; lia]. }
  unfold P in E. clear P.
  apply andb_true_iff in E. destruct E as [E E3].
  apply andb_true_iff in E. destruct E as [E1 E2].
  apply Z.eqb_eq in E1, E2. apply negb_true_iff in E3. auto.
Qed.

(** A conversion reads both digits of a two-digit field in its range. *)
Lemma get_number_two_digits (lo hi z : Z) (r : string) :
  field z -> lo <= z <= hi ->
  get_number lo hi 2 (two_digits z ++ r) = Some (z, r).
Proof.
  intros F B.
  destruct (two_digits_isdigit z F) as [D1 D2].
  destruct (two_digits_codes z F) as (C1 & C2 & S1).
  unfold get_number, two_digits. cbn [append skip_space].
  rewrite S1, D1. cbn [Nat.sub get_digits].
  rewrite C1, C2, D2.
  assert (L : (z / 10 * 10 <=? hi) = true) by (apply Z.leb_le; zdiv).
  rewrite L. cbn [andb].
  replace (z / 10 * 10 + z mod 10) with z by zdiv.
  assert (R : (lo <=? z) && (z <=? hi) = true)
    by (apply andb_true_iff; split; apply Z.leb_le; lia).
  now rewrite R.
Qed.

Lemma dlr_ten_digits (tz : Z) (g : tm) (yy mon dd hh mi : Z) (rest : string) :
  field yy -> 1 <= mon <= 12 -> 1 <= dd <= 31 -> 0 <= hh <= 23 -> 0 <= mi <= 59 ->
  ParseDlrTimestamp tz g
    (two_digits yy ++ two_digits mon ++ two_digits dd ++ two_digits hh
     ++ two_digits mi ++ rest)
  = Ok (from_time_t
          (instant_at_offset (if yy <? 69 then 2000 + yy else 1900 + yy)
             mon dd hh mi 0 tz)).
Proof.
  intros Hyy Hmon Hdd Hhh Hmi.
  unfold ParseDlrTimestamp, dlr_format.
  cbn [strptime strptime_conv].
  rewrite (get_number_two_digits 0 99 yy) by (unfold field in *; lia).
  rewrite (get_number_two_digits 1 12 mon) by (unfold field; lia).
  rewrite (get_number_two_digits 1 31 dd) by (unfold field; lia).
  rewrite (get_number_two_digits 0 23 hh) by (unfold field; lia).
  rewrite (get_number_two_digits 0 59 mi) by (unfold field; lia).
  cbn [fst]. unfold instant_at_offset.
  cbv [mktime set_min set_hour set_mday set_mon set_year set_sec set_isdst
       tm_sec tm_min tm_hour tm_mday tm_mon tm_year tm_isdst tm_gmtoff].
  replace ((mon - 1) / 12) with 0 by zdiv.
  replace ((mon - 1) mod 12 + 1) with mon by zdiv.
  do 3 f_equal. unfold field in Hyy.
  destruct (Z.leb_spec 69 yy), (Z.ltb_spec yy 69); f_equal; lia.
Qed.

(** C6, as the code has it: the delivery-receipt parser reports no error
    on malformed input.  Characters after the tenth digit are ignored;
    on an input that ends after the hour, or that has a letter in the
    month, the conversion stops and the missing fields are those found
    in the uninitialised structure; a year field of 99 is read as 1999.
    The well-formed 1402031337 gives 2014-02-03 13:37:00 local time. *)
Theorem C6_dlr_accepts_malformed (tz : Z) (g : tm) :
  ParseDlrTimestamp tz g "1402031337"
  = Ok (from_time_t (instant_at_offset 2014 2 3 13 37 0 tz))
  /\ ParseDlrTimestamp tz g "1402031337XYZ" = ParseDlrTimestamp tz g "1402031337"
  /\ ParseDlrTimestamp tz g "14020313"
     = Ok (from_time_t
             (mktime tz (mkTm 0 (tm_min g) 13 3 1 114 (-1) (tm_gmtoff g))))
  /\ ParseDlrTimestamp tz g "14o2031337"
     = Ok (from_time_t
             (mktime tz (mkTm 0 (tm_min g) (tm_hour g) (tm_mday g) (tm_mon g) 114
                           (-1) (tm_gmtoff g))))
  /\ ParseDlrTimestamp tz g "9902031337"
     = Ok (from_time_t (instant_at_offset 1999 2 3 13 37 0 tz))
  /\ (forall s : string, exists tp, ParseDlrTimestamp tz g s = Ok tp).
Proof.
  assert (T : forall rest,
             ParseDlrTimestamp tz g
               (two_digits 14 ++ two_digits 2 ++ two_digits 3 ++ two_digits 13
                ++ two_digits 37 ++ rest)
             = Ok (from_time_t (instant_at_offset 2014 2 3 13 37 0 tz))).
  { intros rest. rewrite dlr_ten_digits by (unfold field; lia). reflexivity. }
  split; [exact (T EmptyString)|].
  split; [exact (eq_trans (T "XYZ") (eq_sym (T EmptyString)))|].
  split; [reflexivity|].
  split; [reflexivity|].
  split.
  - change "9902031337"
      with (two_digits 99 ++ two_digits 2 ++ two_digits 3 ++ two_digits 13
            ++ two_digits 37 ++ EmptyString).
    rewrite dlr_ten_digits by (unfold field; lia). reflexivity.
  - intros s. eexists. reflexivity.
Qed.

(** * Further properties of the codec *)

(** ** The legacy relative resolver *)

Lemma istream_int_two_digits (z : Z) : field z -> istream_int (two_digits z) = z.
Proof.
  intros H. apply Z.eqb_eq.
  apply (below_forall (fun z => istream_int (two_digits z) =? z) 100).
  - vm_compute. reflexivity.
  - unfold field in H. lia.
Qed.

(** X1: on the sub-matches of every string of the grammar, the legacy
    resolver and the chrono resolver compute the same duration: the
    legacy one returns it as a [time_duration] of whole seconds. *)
Theorem X1_legacy_relative_agrees (yy mon dd hh mi ss t nn : Z) (p : ascii) :
  field yy -> field mon -> field dd -> field hh -> field mi -> field ss ->
  tenth t -> field nn -> is_tag p = true ->
  exists m,
    regex_match pattern (wire yy mon dd hh mi ss t nn p) = Some m
    /\ ParseRelativeTimestamp m = Ok (relative_seconds yy mon dd hh mi ss)
    /\ legacy.parseRelativeTimestamp m
       = of_seconds (relative_seconds yy mon dd hh mi ss).
Proof.
  intros Hyy Hmon Hdd Hhh Hmi Hss Ht Hnn Hp.
  eexists. split; [now apply match_wire|].
  split; [now apply relative_wire|].
  unfold legacy.parseRelativeTimestamp. cbn [sub nth].
  rewrite !istream_int_two_digits by assumption.
  unfold field in *.
  rewrite int32_small by lia.
  unfold make_duration, of_seconds, relative_seconds.
  replace (yy * 365 * 24 + mon * 30 * 24 + dd * 24 + hh <? 0) with false
    by (symmetry; apply Z.ltb_ge; lia).
  replace (mi <? 0) with false by (symmetry; apply Z.ltb_ge; lia).
  replace (ss <? 0) with false by (symmetry; apply Z.ltb_ge; lia).
  cbn [orb]. f_equal. lia.
Qed.

Lemma X1_legacy_relative_agrees_witness :
  exists m,
    regex_match pattern (wire 99 12 10 23 34 29 0 0 "R") = Some m
    /\ ParseRelativeTimestamp m = Ok (relative_seconds 99 12 10 23 34 29)
    /\ legacy.parseRelativeTimestamp m
       = of_seconds (relative_seconds 99 12 10 23 34 29).
Proof.
  apply (X1_legacy_relative_agrees 99 12 10 23 34 29 0 0 "R");
    try (unfold field, tenth; lia).
  reflexivity.
Defined.

(** ** The expected values of the test suite *)

(** X2: for every absolute wire string the parser returns exactly the
    instant that the helper of the test suite builds from the same
    calendar fields, whatever offset is passed to the helper and
    whatever the offset field and sign of the string are. *)
Theorem X2_parser_equals_MakeTimePoint
  (tz now : Z) (g g' : tm) (yy mon dd hh mi ss t nn : Z) (p : ascii) (gmtoff : Z) :
  field yy -> field mon -> field dd -> field hh -> field mi -> field ss ->
  tenth t -> field nn -> p = "+"%char \/ p = "-"%char ->
  exists d,
    ParseSmppTimestamp tz now g (wire yy mon dd hh mi ss t nn p)
    = Ok (time_test.MakeTimePoint tz g' (2000 + yy) mon dd hh mi ss gmtoff, d).
Proof.
  intros Hyy Hmon Hdd Hhh Hmi Hss Ht Hnn Hp.
  rewrite parse_absolute_wire by assumption.
  eexists. do 2 f_equal.
  unfold time_test.MakeTimePoint. unfold field in *.
  rewrite (int32_small (2000 + yy - 1900)) by lia.
  rewrite (int32_small (mon - 1)) by lia.
  cbv [mktime set_gmtoff set_isdst set_sec set_min set_hour set_mday set_mon set_year
       tm_sec tm_min tm_hour tm_mday tm_mon tm_year tm_isdst tm_gmtoff].
  do 3 f_equal. lia.
Qed.

Lemma X2_parser_equals_MakeTimePoint_witness :
  exists d,
    ParseSmppTimestamp 3600 0 zero_tm (wire 11 10 19 8 0 0 0 17 "+")
    = Ok (time_test.MakeTimePoint 3600 zero_tm (2000 + 11) 10 19 8 0 0 (-60), d).
Proof.
  apply (X2_parser_equals_MakeTimePoint 3600 0 zero_tm zero_tm 11 10 19 8 0 0 0 17 "+" (-60));
    try (unfold field, tenth; lia).
  left; reflexivity.
Defined.

(** ** The two parsers on the same calendar fields *)

(** The structure that the delivery-receipt parser hands to [mktime]. *)
Lemma dlr_tm (tz : Z) (g : tm) (yy mon dd hh mi : Z) (rest : string) :
  field yy -> 1 <= mon <= 12 -> 1 <= dd <= 31 -> 0 <= hh <= 23 -> 0 <= mi <= 59 ->
  ParseDlrTimestamp tz g
    (two_digits yy ++ two_digits mon ++ two_digits dd ++ two_digits hh
     ++ two_digits mi ++ rest)
  = Ok (from_time_t
          (mktime tz (mkTm 0 mi hh dd (mon - 1) (if yy <? 69 then 100 + yy else yy)
                        (-1) (tm_gmtoff g)))).
Proof.
  intros Hyy Hmon Hdd Hhh Hmi.
  unfold ParseDlrTimestamp, dlr_format.
  cbn [strptime strptime_conv].
  rewrite (get_number_two_digits 0 99 yy) by (unfold field in *; lia).
  rewrite (get_number_two_digits 1 12 mon) by (unfold field; lia).
  rewrite (get_number_two_digits 1 31 dd) by (unfold field; lia).
  rewrite (get_number_two_digits 0 23 hh) by (unfold field; lia).
  rewrite (get_number_two_digits 0 59 mi) by (unfold field; lia).
  cbn [fst].
  cbv [set_min set_hour set_mday set_mon set_year set_sec set_isdst
       tm_sec tm_min tm_hour tm_mday tm_mon tm_year tm_isdst tm_gmtoff].
  do 4 f_equal. unfold field in Hyy.
  destruct (Z.leb_spec 69 yy), (Z.ltb_spec yy 69); lia.
Qed.

(** X3: a delivery-receipt string YYMMDDhhmm and the absolute wire string
    with the same fields and second 00 hand the same month, day, hour,
    minute and second to [mktime]; the year is the same, 20YY, for YY up
    to 68, and the two parsers then return the same instant; from
    YY = 69 on the delivery-receipt parser passes the year 19YY where
    the absolute resolver passes 20YY. *)
Theorem X3_dlr_and_absolute_parsers
  (tz now : Z) (g g' : tm) (yy mon dd hh mi t nn : Z) (p : ascii) :
  field yy -> 1 <= mon <= 12 -> 1 <= dd <= 31 -> 0 <= hh <= 23 -> 0 <= mi <= 59 ->
  tenth t -> field nn -> p = "+"%char \/ p = "-"%char ->
  exists off d,
    ParseDlrTimestamp tz g
      (two_digits yy ++ two_digits mon ++ two_digits dd ++ two_digits hh
       ++ two_digits mi)
    = Ok (from_time_t
            (mktime tz (mkTm 0 mi hh dd (mon - 1) (if yy <? 69 then 100 + yy else yy)
                          (-1) (tm_gmtoff g))))
    /\ ParseSmppTimestamp tz now g'
         (two_digits yy ++ two_digits mon ++ two_digits dd ++ two_digits hh
          ++ two_digits mi ++ two_digits 0 ++ one_digit t ++ two_digits nn
          ++ String p EmptyString)
       = Ok (from_time_t (mktime tz (mkTm 0 mi hh dd (mon - 1) (100 + yy) (-1) off)), d)
    /\ (yy <= 68 ->
        ParseDlrTimestamp tz g
          (two_digits yy ++ two_digits mon ++ two_digits dd ++ two_digits hh
           ++ two_digits mi)
        = Ok (from_time_t (mktime tz (mkTm 0 mi hh dd (mon - 1) (100 + yy) (-1) off)))).
Proof.
  intros Hyy Hmon Hdd Hhh Hmi Ht Hnn Hp.
  pose proof (dlr_tm tz g yy mon dd hh mi EmptyString Hyy Hmon Hdd Hhh Hmi) as D.
  replace (two_digits mi ++ EmptyString) with (two_digits mi) in D by reflexivity.
  pose proof (parse_absolute_wire tz now g' yy mon dd hh mi 0 t nn p) as A.
  cbv zeta in A. unfold wire in A.
  do 2 eexists. split; [exact D|].
  split; [apply A; assumption || unfold field; lia|].
  intros L. rewrite D.
  replace (yy <? 69) with true by (symmetry; apply Z.ltb_lt; lia).
  reflexivity.
Qed.

Lemma X3_dlr_and_absolute_parsers_witness :
  exists off d,
    ParseDlrTimestamp 0 zero_tm
      (two_digits 99 ++ two_digits 2 ++ two_digits 3 ++ two_digits 13
       ++ two_digits 37)
    = Ok (from_time_t
            (mktime 0 (mkTm 0 37 13 3 (2 - 1) (if 99 <? 69 then 100 + 99 else 99)
                         (-1) (tm_gmtoff zero_tm))))
    /\ ParseSmppTimestamp 0 0 zero_tm
         (two_digits 99 ++ two_digits 2 ++ two_digits 3 ++ two_digits 13
          ++ two_digits 37 ++ two_digits 0 ++ one_digit 0 ++ two_digits 4
          ++ String "-" EmptyString)
       = Ok (from_time_t (mktime 0 (mkTm 0 37 13 3 (2 - 1) (100 + 99) (-1) off)), d)
    /\ (99 <= 68 ->
        ParseDlrTimestamp 0 zero_tm
          (two_digits 99 ++ two_digits 2 ++ two_digits 3 ++ two_digits 13
           ++ two_digits 37)
        = Ok (from_time_t (mktime 0 (mkTm 0 37 13 3 (2 - 1) (100 + 99) (-1) off)))).
Proof.
  apply (X3_dlr_and_absolute_parsers 0 0 zero_tm zero_tm 99 2 3 13 37 0 4 "-");
    try (unfold field, tenth; lia).
  right; reflexivity.
Defined.

(** ** The pair that the parser returns *)

(** X4: for a relative wire string the returned instant lies exactly the
    returned duration after the clock reading, as long as the clock
    reading is not within 108 years of the end of the 64-bit range; the
    duration lies between 0 and 3387588039 seconds, a value that needs
    more than 32 bits. *)
Theorem X4_relative_instant_exact
  (tz now : Z) (g : tm) (yy mon dd hh mi ss t nn : Z) :
  field yy -> field mon -> field dd -> field hh -> field mi -> field ss ->
  tenth t -> field nn ->
  0 <= now <= 5 * 10 ^ 18 ->
  exists tp d,
    ParseSmppTimestamp tz now g (wire yy mon dd hh mi ss t nn "R") = Ok (tp, d)
    /\ 0 <= d <= 3387588039
    /\ tp = now + d * nanos_per_second
    /\ ParseSmppTimestamp tz now g (wire 99 99 99 99 99 99 t nn "R")
       = Ok (now + 3387588039 * nanos_per_second, 3387588039).
Proof.
  intros Hyy Hmon Hdd Hhh Hmi Hss Ht Hnn Hnow.
  assert (W : forall d, 0 <= d <= 3387588039 -> tp_add now d = now + d * nanos_per_second).
  { intros d Hd. unfold tp_add, nanos_per_second.
    rewrite (int64_small (d * 1000000000)) by lia.
    apply int64_small. lia. }
  rewrite !parse_relative_wire by (assumption || unfold field; lia).
  unfold field in *.
  assert (B : 0 <= relative_seconds yy mon dd hh mi ss <= 3387588039)
    by (unfold relative_seconds; lia).
  do 2 eexists. split; [reflexivity|]. split; [exact B|].
  split; [now apply W|].
  change (relative_seconds 99 99 99 99 99 99) with 3387588039.
  rewrite W by lia. reflexivity.
Qed.

Lemma X4_relative_instant_exact_witness :
  exists tp d,
    ParseSmppTimestamp 0 1700000000123456789 zero_tm (wire 0 0 2 0 0 0 0 0 "R") = Ok (tp, d)
    /\ 0 <= d <= 3387588039
    /\ tp = 1700000000123456789 + d * nanos_per_second
    /\ ParseSmppTimestamp 0 1700000000123456789 zero_tm (wire 99 99 99 99 99 99 0 0 "R")
       = Ok (1700000000123456789 + 3387588039 * nanos_per_second, 3387588039).
Proof.
  apply (X4_relative_instant_exact 0 1700000000123456789 zero_tm 0 0 2 0 0 0 0 0);
    unfold field, tenth; lia.
Defined.

(** The calendar instant of the fields of a wire string, in seconds. *)
Lemma absolute_time_t_bounds (tz yy mon dd hh mi ss g : Z) :
  field yy -> field mon -> field dd -> field hh -> field mi -> field ss ->
  - 86400 <= tz <= 86400 ->
  0 <= mktime tz (mkTm ss mi hh dd (mon - 1) (100 + yy) (-1) g) <= 5 * 10 ^ 9.
Proof.
  unfold field. intros Hyy Hmon Hdd Hhh Hmi Hss Htz.
  cbv [mktime civil_seconds days_from_civil
       tm_sec tm_min tm_hour tm_mday tm_mon tm_year tm_isdst tm_gmtoff].
  destruct ((mon - 1) mod 12 + 1 <=? 2); zdiv.
Qed.

(** X5: for an absolute wire string the returned duration is the distance
    from the clock reading to the returned instant, cut to whole seconds
    toward zero: the duration in nanoseconds lies between zero and the
    distance, less than a second short of it, and it is exact when the
    clock reading is a whole second. *)
Theorem X5_absolute_duration_truncated
  (tz now : Z) (g : tm) (yy mon dd hh mi ss t nn : Z) (p : ascii) :
  field yy -> field mon -> field dd -> field hh -> field mi -> field ss ->
  tenth t -> field nn -> p = "+"%char \/ p = "-"%char ->
  - 86400 <= tz <= 86400 -> 0 <= now <= 5 * 10 ^ 18 ->
  exists tp d,
    ParseSmppTimestamp tz now g (wire yy mon dd hh mi ss t nn p) = Ok (tp, d)
    /\ tp mod nanos_per_second = 0
    /\ Z.abs (tp - (now + d * nanos_per_second)) < nanos_per_second
    /\ (now <= tp -> 0 <= d * nanos_per_second <= tp - now)
    /\ (tp <= now -> tp - now <= d * nanos_per_second <= 0)
    /\ (now mod nanos_per_second = 0 -> tp = now + d * nanos_per_second).
Proof.
  intros Hyy Hmon Hdd Hhh Hmi Hss Ht Hnn Hp Htz Hnow.
  rewrite parse_absolute_wire by assumption.
  pose proof (absolute_time_t_bounds tz yy mon dd hh mi ss
                ((if Ascii.eqb p "+" then -1 else 1)
                 * (Z.shiftr nn 2 * 3600 + (nn mod 4) * 15 * 60))
                Hyy Hmon Hdd Hhh Hmi Hss Htz) as B.
  set (u := mktime tz _) in *.
  do 2 eexists. split; [reflexivity|].
  unfold from_time_t, duration_cast_seconds, nanos_per_second.
  rewrite (int64_small (u * 1000000000)) by lia.
  rewrite (int64_small (u * 1000000000 - now)) by lia.
  repeat split; zdiv.
Qed.

Lemma X5_absolute_duration_truncated_witness :
  exists tp d,
    ParseSmppTimestamp 0 1700000000123456789 zero_tm (wire 11 10 19 8 0 0 0 2 "+")
    = Ok (tp, d)
    /\ tp mod nanos_per_second = 0
    /\ Z.abs (tp - (1700000000123456789 + d * nanos_per_second)) < nanos_per_second
    /\ (1700000000123456789 <= tp ->
        0 <= d * nanos_per_second <= tp - 1700000000123456789)
    /\ (tp <= 1700000000123456789 ->
        tp - 1700000000123456789 <= d * nanos_per_second <= 0)
    /\ (1700000000123456789 mod nanos_per_second = 0 ->
        tp = 1700000000123456789 + d * nanos_per_second).
Proof.
  apply (X5_absolute_duration_truncated 0 1700000000123456789 zero_tm 11 10 19 8 0 0 0 2 "+");
    try (unfold field, tenth; lia).
  left; reflexivity.
Defined.

(** X6: the result of [ParseSmppTimestamp] does not depend on the content
    of the uninitialised structure that the absolute resolver fills in. *)
Theorem X6_parser_ignores_garbage (tz now : Z) (g g' : tm) (s : string) :
  ParseSmppTimestamp tz now g s = ParseSmppTimestamp tz now g' s.
Proof.
  destruct (wire_grammar s) eqn:G.
  - destruct (wire_grammar_inv s G)
      as (yy & mon & dd & hh & mi & ss & t & nn & p
          & Hyy & Hmon & Hdd & Hhh & Hmi & Hss & Ht & Hnn & Hp & ->).
    destruct (is_tag_cases p Hp) as [->|Hs].
    + now rewrite !parse_relative_wire.
    + now rewrite !parse_absolute_wire.
  - pose proof (regex_grammar s) as R. rewrite G in R.
    unfold ParseSmppTimestamp.
    destruct (regex_match pattern s); [discriminate R|reflexivity].
Qed.

(** ** The duration formatter after the relative resolver *)

(** X7: the duration of a relative wire string makes the formatter throw
    the overflow error exactly from 876000 hours (3153600000 s) on;
    below that the formatter formats, into the buffer that the
    terminating NUL overruns, a string that parses to the same result
    as the original one. *)
Theorem X7_parse_then_format
  (tz now : Z) (g : tm) (yy mon dd hh mi ss t nn : Z) :
  field yy -> field mon -> field dd -> field hh -> field mi -> field ss ->
  tenth t -> field nn ->
  exists tp d,
    ParseSmppTimestamp tz now g (wire yy mon dd hh mi ss t nn "R") = Ok (tp, d)
    /\ (ToSmppTimeString d = Returns (Throw overflow_error) <-> 3153600000 <= d)
    /\ (d < 3153600000 ->
        exists s, ToSmppTimeString d = Overrun s 16
                  /\ ParseSmppTimestamp tz now g s = Ok (tp, d)).
Proof.
  intros Hyy Hmon Hdd Hhh Hmi Hss Ht Hnn.
  rewrite parse_relative_wire by assumption.
  set (d := relative_seconds yy mon dd hh mi ss).
  assert (B : 0 <= d <= 3387588039)
    by (unfold d, relative_seconds, field in *; lia).
  assert (Y : year_count d < 2 ^ 31) by (unfold year_count; zdiv).
  assert (T : 99 < year_count d <-> 3153600000 <= d) by (unfold year_count; zdiv).
  do 2 eexists. split; [reflexivity|]. split; [split|].
  - intros E. apply T.
    destruct (Z.lt_ge_cases 99 (year_count d)) as [L|L]; [exact L|].
    rewrite formatter_in_range in E by lia. discriminate E.
  - intros L. apply T in L. unfold ToSmppTimeString. cbv zeta.
    rewrite formatter_year by lia.
    apply Z.ltb_lt in L. now rewrite L.
  - intros L. assert (L' : year_count d <= 99) by lia.
    exists (relative_wire_of (denormalize d)).
    split; [apply formatter_in_range; lia|].
    pose proof (denormalize_fields d (proj1 B) L') as F.
    destruct (denormalize d) as [[[[[y1 m1] d1] h1] i1] s1].
    destruct F as [(Fy & Fm & Fd & Fh & Fi & Fs) R].
    unfold relative_wire_of.
    rewrite parse_relative_wire by (unfold field, tenth; lia).
    now rewrite R.
Qed.

Lemma X7_parse_then_format_witness :
  exists tp d,
    ParseSmppTimestamp 0 0 zero_tm (wire 99 12 10 23 34 29 0 0 "R") = Ok (tp, d)
    /\ (ToSmppTimeString d = Returns (Throw overflow_error) <-> 3153600000 <= d)
    /\ (d < 3153600000 ->
        exists s, ToSmppTimeString d = Overrun s 16
                  /\ ParseSmppTimestamp 0 0 zero_tm s = Ok (tp, d)).
Proof.
  apply (X7_parse_then_format 0 0 zero_tm 99 12 10 23 34 29 0 0);
    unfold field, tenth; lia.
Defined.

(** X8: the fields that the formatter formats (into the buffer that the
    terminating NUL overruns) are canonical: year at most 99, month at
    most 12, day at most 29, hour at most 23, minute and second at most
    59, and a month of 12 comes with a day of at most 4 (the 365-day
    year has five days more than twelve 30-day months). *)
Theorem X8_formatter_fields_canonical (d : Z) :
  0 <= d -> year_count d <= 99 ->
  exists yy mon dd hh mi ss,
    ToSmppTimeString d = Overrun (wire yy mon dd hh mi ss 0 0 "R") 16
    /\ 0 <= yy <= 99 /\ 0 <= mon <= 12 /\ 0 <= dd <= 29
    /\ 0 <= hh <= 23 /\ 0 <= mi <= 59 /\ 0 <= ss <= 59
    /\ (mon = 12 -> dd <= 4)
    /\ d = (((yy * 365 + mon * 30 + dd) * 24 + hh) * 60 + mi) * 60 + ss.
Proof.
  intros Hd Hy.
  rewrite formatter_in_range by assumption.
  unfold year_count in Hy. unfold denormalize, relative_wire_of.
  change (365 * 24) with 8760. change (30 * 24) with 720.
  do 6 eexists. split; [reflexivity|].
  repeat split; zdiv.
Qed.

Lemma X8_formatter_fields_canonical_witness :
  exists yy mon dd hh mi ss,
    ToSmppTimeString (364 * 86400) = Overrun (wire yy mon dd hh mi ss 0 0 "R") 16
    /\ 0 <= yy <= 99 /\ 0 <= mon <= 12 /\ 0 <= dd <= 29
    /\ 0 <= hh <= 23 /\ 0 <= mi <= 59 /\ 0 <= ss <= 59
    /\ (mon = 12 -> dd <= 4)
    /\ 364 * 86400 = (((yy * 365 + mon * 30 + dd) * 24 + hh) * 60 + mi) * 60 + ss.
Proof.
  apply (X8_formatter_fields_canonical (364 * 86400)); [lia | vm_compute; discriminate].
Defined.

(** ** The legacy duration formatter beyond 99 years *)

Lemma grammar_length (s : string) : wire_grammar s = true -> String.length s = 16%nat.
Proof.
  intros G.
  destruct (wire_grammar_inv s G)
    as (yy & mon & dd & hh & mi & ss & t & nn & p & _ & _ & _ & _ & _ & _ & _ & _ & _ & ->).
  reflexivity.
Qed.

Lemma parse_rejects (tz now : Z) (g : tm) (s : string) :
  wire_grammar s = false -> ParseSmppTimestamp tz now g s = Throw (format_error s).
Proof.
  intros G. pose proof (regex_grammar s) as R. rewrite G in R.
  unfold ParseSmppTimestamp.
  destruct (regex_match pattern s); [discriminate R|reflexivity].
Qed.

Lemma length_app (a b : string) :
  String.length (a ++ b) = (String.length a + String.length b)%nat.
Proof.
  induction a as [|c a IH]; [reflexivity|].
  cbn [append String.length]. now rewrite IH.
Qed.

Lemma setw2_three_digits (z : Z) :
  100 <= z <= 999 -> String.length (ostream_setw2 z) = 3%nat.
Proof.
  intros H. apply Nat.eqb_eq.
  pose (P := fun k => Nat.eqb (String.length (ostream_setw2 (100 + k))) 3).
  assert (E : P (z - 100) = true).
  { apply (below_forall P 900); [vm_compute; reflexivity | lia]. }
  unfold P in E. now replace (100 + (z - 100)) with z in E by lia.
Qed.

(** X10: the legacy duration formatter has no overflow check.  For a
    duration of 100 to 999 years, on which the chrono formatter throws
    the overflow error, it returns a string of 17 characters, and the
    parser rejects that string. *)
Theorem X10_legacy_formatter_unchecked (tz now : Z) (g : tm) (d : Z) :
  0 <= d -> 100 <= year_count d <= 999 ->
  ToSmppTimeString d = Returns (Throw overflow_error)
  /\ String.length (legacy.getTimeString (of_seconds d)) = 17%nat
  /\ ParseSmppTimestamp tz now g (legacy.getTimeString (of_seconds d))
     = Throw (format_error (legacy.getTimeString (of_seconds d))).
Proof.
  intros Hd Hy.
  split.
  { unfold ToSmppTimeString. cbv zeta.
    rewrite formatter_year by (assumption || lia).
    replace (99 <? year_count d) with true by (symmetry; apply Z.ltb_lt; lia).
    reflexivity. }
  assert (L : String.length (legacy.getTimeString (of_seconds d)) = 17%nat).
  { unfold year_count in Hy.
    unfold legacy.getTimeString, Boost.hours, Boost.minutes, Boost.seconds, of_seconds,
      ticks_per_second.
    cbn [ticks].
    change (3600 * 1000000) with 3600000000. change (60 * 1000000) with 60000000.
    replace (Z.quot (d * 1000000) 3600000000) with (d / 3600) by zdiv.
    replace (Z.rem (Z.quot (d * 1000000) 60000000) 60) with ((d / 60) mod 60) by zdiv.
    replace (Z.rem (Z.quot (d * 1000000) 1000000) 60) with (d mod 60) by zdiv.
    assert (B : 0 <= d / 3600 < 8760000) by zdiv.
    rewrite (int32_small (d / 3600)) by lia.
    rewrite (Z.quot_div_nonneg (d / 3600) 24) by lia.
    rewrite (Z.quot_div_nonneg (d / 3600 / 24) 365) by zdiv.
    set (h1 := d / 3600 - d / 3600 / 24 / 365 * 24 * 365).
    assert (B1 : 0 <= h1 < 8760) by (unfold h1; zdiv).
    rewrite (int32_small h1) by lia.
    rewrite (Z.quot_div_nonneg h1 24) by lia.
    rewrite (Z.quot_div_nonneg (h1 / 24) 30) by zdiv.
    set (h2 := h1 - h1 / 24 / 30 * 24 * 30).
    assert (B2 : 0 <= h2 < 720) by (unfold h2; zdiv).
    rewrite (int32_small h2) by lia.
    rewrite (Z.quot_div_nonneg h2 24) by lia.
    set (h3 := h2 - h2 / 24 * 24).
    assert (B3 : 0 <= h3 < 24) by (unfold h3; zdiv).
    rewrite (int32_small h3) by lia.
    rewrite (ostream_setw2_field (h1 / 24 / 30)) by (unfold field; zdiv).
    rewrite (ostream_setw2_field (h2 / 24)) by (unfold field; zdiv).
    rewrite (ostream_setw2_field h3) by (unfold field; lia).
    rewrite (ostream_setw2_field ((d / 60) mod 60)) by (unfold field; zdiv).
    rewrite (ostream_setw2_field (d mod 60)) by (unfold field; zdiv).
    rewrite length_app, setw2_three_digits by zdiv.
    reflexivity. }
  split; [exact L|].
  apply parse_rejects.
  destruct (wire_grammar (legacy.getTimeString (of_seconds d))) eqn:G; [|reflexivity].
  apply grammar_length in G. rewrite L in G. discriminate G.
Qed.

Lemma X10_legacy_formatter_unchecked_witness :
  ToSmppTimeString 3154116869 = Returns (Throw overflow_error)
  /\ String.length (legacy.getTimeString (of_seconds 3154116869)) = 17%nat
  /\ ParseSmppTimestamp 0 0 zero_tm (legacy.getTimeString (of_seconds 3154116869))
     = Throw (format_error (legacy.getTimeString (of_seconds 3154116869))).
Proof.
  apply (X10_legacy_formatter_unchecked 0 0 zero_tm 3154116869);
    [lia | split; vm_compute; discriminate].
Defined.

(** ** The buffer of the duration formatter *)

Lemma zeros_length (n : nat) : String.length (zeros n) = n.
Proof. induction n as [|n IH]; [reflexivity|]. cbn [zeros String.length]. now rewrite IH. Qed.

Lemma pad0_length (w : nat) (s : string) : (w <= String.length (pad0 w s))%nat.
Proof. unfold pad0. rewrite length_app, zeros_length. lia. Qed.

Lemma printf_02_length (z : Z) : (2 <= String.length (printf_02 z))%nat.
Proof.
  unfold printf_02. destruct (z <? 0).
  - cbn [String.length]. pose proof (pad0_length 1 (dec (- z))). lia.
  - apply pad0_length.
Qed.

Lemma sprintf_six_fields (a1 a2 a3 a4 a5 a6 : Z) :
  sprintf_buf 16
    (printf_02 a1 ++ printf_02 a2 ++ printf_02 a3 ++ printf_02 a4
     ++ printf_02 a5 ++ printf_02 a6 ++ "000R")
  = Overrun
      (printf_02 a1 ++ printf_02 a2 ++ printf_02 a3 ++ printf_02 a4
       ++ printf_02 a5 ++ printf_02 a6 ++ "000R") 16
  /\ (16 <= String.length
              (printf_02 a1 ++ printf_02 a2 ++ printf_02 a3 ++ printf_02 a4
               ++ printf_02 a5 ++ printf_02 a6 ++ "000R"))%nat.
Proof.
  assert (L : (16 <= String.length
                       (printf_02 a1 ++ printf_02 a2 ++ printf_02 a3 ++ printf_02 a4
                        ++ printf_02 a5 ++ printf_02 a6 ++ "000R"))%nat).
  { rewrite !length_app. cbn [String.length].
    pose proof (printf_02_length a1). pose proof (printf_02_length a2).
    pose proof (printf_02_length a3). pose proof (printf_02_length a4).
    pose proof (printf_02_length a5). pose proof (printf_02_length a6). lia. }
  split; [|exact L].
  unfold sprintf_buf.
  replace (Nat.leb _ 16) with false; [reflexivity|].
  symmetry. apply Nat.leb_gt. lia.
Qed.

(** X18: the duration formatter never returns a string.  Whatever the
    duration, either it throws the overflow error or [sprintf] is asked
    to store at least 16 characters and the terminating NUL in the
    buffer of 16 bytes. *)
Theorem X18_formatter_never_returns (d : Z) :
  ToSmppTimeString d = Returns (Throw overflow_error)
  \/ exists s, ToSmppTimeString d = Overrun s 16 /\ (16 <= String.length s)%nat.
Proof.
  unfold ToSmppTimeString. cbv zeta.
  match goal with |- context [if ?c then _ else _] => destruct c end.
  - left. reflexivity.
  - right. eexists. apply sprintf_six_fields.
Qed.

(** ** The duration formatter on negative durations *)






(** ** The formatter of a local date and time *)

Lemma dec_four_digits (y : Z) :
  1000 <= y <= 9999 ->
  exists a b, dec y = String a (String b (two_digits (y mod 100))).
Proof.
  intros H.
  pose (P := fun k => match dec (1000 + k) with
                      | String a (String b r) =>
                          String.eqb r (two_digits ((1000 + k) mod 100))
                      | _ => false
                      end).
  assert (E : P (y - 1000) = true).
  { apply (below_forall P (Z.to_nat 9000)); [vm_compute; reflexivity | rewrite Z2Nat.id; lia]. }
  unfold P in E. replace (1000 + (y - 1000)) with y in E by lia.
  destruct (dec y) as [|a [|b r]]; try discriminate E.
  apply String.eqb_eq in E. subst r. now exists a, b.
Qed.

Lemma iso_date_substr (y m d : Z) :
  1000 <= y <= 9999 -> field m -> field d ->
  substr (to_iso_string (Date y m d)) 2 6
  = Ok (two_digits (y mod 100) ++ two_digits m ++ two_digits d).
Proof.
  intros Hy Hm Hd. unfold to_iso_string. cbn [year month day].
  destruct (dec_four_digits y Hy) as (a & b & ->).
  rewrite !ostream_setw2_field by assumption.
  reflexivity.
Qed.

(** The offset field: the quarter hours of the offset, towards zero. *)
Lemma quarter_hours (o : time_duration) :
  Z.abs (ticks o) < 25 * 3600 * ticks_per_second ->
  Z.abs (int32 ((Boost.hours o * 4) + Z.quot (Boost.minutes o) 15))
  = Z.abs (ticks o) / (900 * ticks_per_second)
  /\ 0 <= Z.abs (ticks o) / (900 * ticks_per_second) <= 99.
Proof.
  destruct o as [o]. cbn [ticks]. unfold Boost.hours, Boost.minutes, ticks_per_second.
  cbn [ticks].
  change (25 * 3600 * 1000000) with 90000000000.
  change (3600 * 1000000) with 3600000000. change (60 * 1000000) with 60000000.
  change (900 * 1000000) with 900000000.
  intros H.
  assert (B : - 100 < Z.quot o 3600000000 * 4 + Z.quot (Z.rem (Z.quot o 60000000) 60) 15 < 100)
    by zdiv.
  rewrite int32_small by lia.
  split; zdiv.
Qed.

(** The part that the two formatters of a local date and time share. *)
Lemma ldt_layout (y m d : Z) (td o : time_duration) :
  1000 <= y <= 9999 -> 1 <= m <= 12 -> 1 <= d <= 31 ->
  0 <= ticks td < 86400 * ticks_per_second ->
  Z.abs (ticks o) < 25 * 3600 * ticks_per_second ->
  bind (substr (to_iso_string (Date y m d)) 2 6)
    (fun d6 =>
       Ok (d6 ++ ostream_setw2 (Boost.hours td) ++ ostream_setw2 (Boost.minutes td)
           ++ ostream_setw2 (Boost.seconds td) ++ "0"
           ++ ostream_setw2
                (Z.abs (int32 ((Boost.hours o * 4) + Z.quot (Boost.minutes o) 15)))
           ++ (if is_negative o then "-" else "+")))
  = Ok (wire (y mod 100) m d
          (ticks td / (3600 * ticks_per_second))
          (ticks td / (60 * ticks_per_second) mod 60)
          (ticks td / ticks_per_second mod 60)
          0
          (Z.abs (ticks o) / (900 * ticks_per_second))
          (if ticks o <? 0 then "-"%char else "+"%char)).
Proof.
  intros Hy Hm Hd Htd Ho.
  rewrite iso_date_substr by (assumption || unfold field; lia). cbn [bind].
  destruct (quarter_hours o Ho) as [-> Q].
  rewrite (ostream_setw2_field (Z.abs (ticks o) / _)) by exact Q.
  destruct td as [t]. cbn [ticks] in *.
  unfold Boost.hours, Boost.minutes, Boost.seconds, ticks_per_second in *. cbn [ticks].
  change (86400 * 1000000) with 86400000000 in Htd.
  change (3600 * 1000000) with 3600000000. change (60 * 1000000) with 60000000.
  replace (Z.quot t 3600000000) with (t / 3600000000) by zdiv.
  replace (Z.rem (Z.quot t 60000000) 60) with (t / 60000000 mod 60) by zdiv.
  replace (Z.rem (Z.quot t 1000000) 60) with (t / 1000000 mod 60) by zdiv.
  rewrite !ostream_setw2_field by (unfold field; zdiv).
  unfold is_negative, wire.
  destruct (ticks o <? 0); reflexivity.
Qed.

Lemma ldt_formatter_layout (ldt : local_date_time) :
  let o := if is_dst ldt
           then ticks (base_utc_offset ldt) + ticks (dst_offset ldt)
           else ticks (base_utc_offset ldt) in
  let t := ticks (time_of_day ldt) in
  1000 <= year (local_date ldt) <= 9999 ->
  1 <= month (local_date ldt) <= 12 -> 1 <= day (local_date ldt) <= 31 ->
  0 <= t < 86400 * ticks_per_second ->
  Z.abs o < 25 * 3600 * ticks_per_second ->
  timeformat.getTimeString ldt
  = Ok (wire (year (local_date ldt) mod 100) (month (local_date ldt))
          (day (local_date ldt))
          (t / (3600 * ticks_per_second))
          (t / (60 * ticks_per_second) mod 60)
          (t / ticks_per_second mod 60)
          0
          (Z.abs o / (900 * ticks_per_second))
          (if o <? 0 then "-"%char else "+"%char)).
Proof.
  intros o t Hy Hm Hd Ht Ho.
  destruct ldt as [[y m d] td base dst dstp]. cbn [local_date year month day] in *.
  unfold timeformat.getTimeString.
  cbn [time_of_day base_utc_offset dst_offset is_dst local_date] in *.
  pose (off := if dstp then duration_add base dst else base).
  assert (E : ticks off = o) by (unfold off, o; destruct dstp; reflexivity).
  change (if dstp then duration_add base dst else base) with off.
  cbv zeta. rewrite <- E in *.
  now apply ldt_layout.
Qed.

(** X12: for a date with a four-digit year, a time of day, and a zone
    offset (base offset, plus the daylight saving offset when it is in
    effect) of less than 25 hours, the formatter returns the wire string
    of the year modulo 100, month, day, hour, minute, second, tenths 0,
    the whole quarter hours of the offset, and the sign - for a
    negative offset and + otherwise. *)
Theorem X12_ldt_formatter_layout (ldt : local_date_time) :
  let o := if is_dst ldt
           then ticks (base_utc_offset ldt) + ticks (dst_offset ldt)
           else ticks (base_utc_offset ldt) in
  let t := ticks (time_of_day ldt) in
  1000 <= year (local_date ldt) <= 9999 ->
  1 <= month (local_date ldt) <= 12 -> 1 <= day (local_date ldt) <= 31 ->
  0 <= t < 86400 * ticks_per_second ->
  Z.abs o < 25 * 3600 * ticks_per_second ->
  timeformat.getTimeString ldt
  = Ok (wire (year (local_date ldt) mod 100) (month (local_date ldt))
          (day (local_date ldt))
          (t / (3600 * ticks_per_second))
          (t / (60 * ticks_per_second) mod 60)
          (t / ticks_per_second mod 60)
          0
          (Z.abs o / (900 * ticks_per_second))
          (if o <? 0 then "-"%char else "+"%char)).
Proof. exact (ldt_formatter_layout ldt). Qed.

Lemma X12_ldt_formatter_layout_witness :
  timeformat.getTimeString
    (LocalDateTime (Date 2011 10 19) (Ticks 34200000000)
       (Ticks 3600000000) (Ticks 3600000000) true)
  = Ok "111019093000008+".
Proof.
  apply (X12_ldt_formatter_layout
           (LocalDateTime (Date 2011 10 19) (Ticks 34200000000)
              (Ticks 3600000000) (Ticks 3600000000) true));
    cbn [local_date year month day time_of_day ticks is_dst base_utc_offset dst_offset];
    unfold ticks_per_second; lia.
Defined.

(** X13: the string that the formatter returns for a local date and
    time is accepted by the parser, which reads back the calendar fields
    (the year in 2000..2099) but not the instant: the offset that the
    absolute resolver stores is the zone offset cut to quarter hours
    with the opposite sign, and the returned instant is the wall-clock
    reading taken in the time zone of the process. *)
Theorem X13_ldt_format_then_parse (tz now : Z) (g : tm) (ldt : local_date_time) :
  let o := if is_dst ldt
           then ticks (base_utc_offset ldt) + ticks (dst_offset ldt)
           else ticks (base_utc_offset ldt) in
  let t := ticks (time_of_day ldt) in
  1000 <= year (local_date ldt) <= 9999 ->
  1 <= month (local_date ldt) <= 12 -> 1 <= day (local_date ldt) <= 31 ->
  0 <= t < 86400 * ticks_per_second ->
  Z.abs o < 25 * 3600 * ticks_per_second ->
  exists s m r d,
    timeformat.getTimeString ldt = Ok s
    /\ regex_match pattern s = Some m
    /\ absolute_tm g m = Ok r
    /\ tm_year r = 100 + year (local_date ldt) mod 100
    /\ tm_mon r = month (local_date ldt) - 1
    /\ tm_mday r = day (local_date ldt)
    /\ tm_hour r * 3600 + tm_min r * 60 + tm_sec r = t / ticks_per_second
    /\ tm_gmtoff r = - (Z.quot o (900 * ticks_per_second) * 900)
    /\ ParseSmppTimestamp tz now g s
       = Ok (from_time_t
               (instant_at_offset (2000 + year (local_date ldt) mod 100)
                  (month (local_date ldt)) (day (local_date ldt))
                  0 0 (t / ticks_per_second) tz), d).
Proof.
  intros o t Hy Hm Hd Ht Ho.
  rewrite (ldt_formatter_layout ldt Hy Hm Hd Ht Ho).
  fold o t.
  set (yy := year (local_date ldt) mod 100).
  set (mon := month (local_date ldt)) in *.
  set (dd := day (local_date ldt)) in *.
  set (hh := t / (3600 * ticks_per_second)).
  set (mi := t / (60 * ticks_per_second) mod 60).
  set (ss := t / ticks_per_second mod 60).
  set (nn := Z.abs o / (900 * ticks_per_second)).
  set (p := if o <? 0 then "-"%char else "+"%char).
  unfold ticks_per_second in *.
  change (86400 * 1000000) with 86400000000 in Ht.
  change (25 * 3600 * 1000000) with 90000000000 in Ho.
  change (3600 * 1000000) with 3600000000 in hh.
  change (60 * 1000000) with 60000000 in mi.
  change (900 * 1000000) with 900000000 in nn |- *.
  assert (Fyy : field yy) by (unfold field, yy; zdiv).
  assert (Fmon : field mon) by (unfold field; lia).
  assert (Fdd : field dd) by (unfold field; lia).
  assert (Fhh : field hh) by (unfold field, hh; zdiv).
  assert (Fmi : field mi) by (unfold field, mi; zdiv).
  assert (Fss : field ss) by (unfold field, ss; zdiv).
  assert (Fnn : field nn) by (unfold field, nn; zdiv).
  assert (F0 : tenth 0) by (unfold tenth; lia).
  assert (Hp : p = "+"%char \/ p = "-"%char) by (unfold p; destruct (o <? 0); auto).
  assert (Tp : is_tag p = true) by (destruct Hp as [->| ->]; reflexivity).
  do 4 eexists.
  split; [reflexivity|].
  split; [now apply match_wire|].
  split; [now apply absolute_tm_wire|].
  cbn [tm_sec tm_min tm_hour tm_mday tm_mon tm_year tm_gmtoff].
  split; [reflexivity|]. split; [reflexivity|]. split; [reflexivity|].
  split; [unfold hh, mi, ss; zdiv|].
  split.
  { assert (Hs : Z.shiftr nn 2 = nn / 4) by (rewrite Z.shiftr_div_pow2 by lia; reflexivity).
    rewrite Hs. unfold p, nn.
    destruct (Z.ltb_spec o 0); cbn [Ascii.eqb Bool.eqb]; zdiv. }
  rewrite parse_absolute_wire by assumption.
  do 3 f_equal.
  cbv [mktime instant_at_offset civil_seconds
       tm_sec tm_min tm_hour tm_mday tm_mon tm_year tm_isdst tm_gmtoff].
  replace ((mon - 1) / 12) with 0 by zdiv.
  replace ((mon - 1) mod 12 + 1) with mon by zdiv.
  replace (1900 + (100 + yy) + 0) with (2000 + yy) by lia.
  unfold hh, mi, ss. zdiv.
Qed.

Lemma X13_ldt_format_then_parse_witness :
  exists s m r d,
    timeformat.getTimeString
      (LocalDateTime (Date 2011 10 19) (Ticks 34200000000)
         (Ticks (-18000000000)) (Ticks 3600000000) false) = Ok s
    /\ regex_match pattern s = Some m
    /\ absolute_tm zero_tm m = Ok r
    /\ tm_year r = 100 + 2011 mod 100
    /\ tm_mon r = 10 - 1
    /\ tm_mday r = 19
    /\ tm_hour r * 3600 + tm_min r * 60 + tm_sec r = 34200000000 / ticks_per_second
    /\ tm_gmtoff r = - (Z.quot (-18000000000) (900 * ticks_per_second) * 900)
    /\ ParseSmppTimestamp 0 0 zero_tm s
       = Ok (from_time_t
               (instant_at_offset (2000 + 2011 mod 100) 10 19
                  0 0 (34200000000 / ticks_per_second) 0), d).
Proof.
  apply (X13_ldt_format_then_parse 0 0 zero_tm
           (LocalDateTime (Date 2011 10 19) (Ticks 34200000000)
              (Ticks (-18000000000)) (Ticks 3600000000) false));
    cbn [local_date year month day time_of_day ticks is_dst base_utc_offset dst_offset];
    unfold ticks_per_second; lia.
Defined.

Lemma two_digits_inj (a b : Z) : field a -> field b -> two_digits a = two_digits b -> a = b.
Proof.
  intros Ha Hb E.
  pose proof (stoi_two_digits a Ha) as S. rewrite E, (stoi_two_digits b Hb) in S.
  now injection S.
Qed.

(** X14: the legacy formatter of a local date and time agrees with the
    chrono-era one outside daylight saving time.  In daylight saving
    time it encodes the daylight saving offset alone, without the base
    offset of the zone, so the two strings differ for every zone that is
    at least a quarter of an hour east of UTC. *)
Theorem X14_legacy_ldt_formatter (ldt : local_date_time) :
  1000 <= year (local_date ldt) <= 9999 ->
  1 <= month (local_date ldt) <= 12 -> 1 <= day (local_date ldt) <= 31 ->
  0 <= ticks (time_of_day ldt) < 86400 * ticks_per_second ->
  (is_dst ldt = false ->
   legacy.getTimeString_ldt ldt = timeformat.getTimeString ldt)
  /\ (is_dst ldt = true ->
      0 <= ticks (dst_offset ldt) ->
      900 * ticks_per_second <= ticks (base_utc_offset ldt) ->
      ticks (base_utc_offset ldt) + ticks (dst_offset ldt) < 25 * 3600 * ticks_per_second ->
      legacy.getTimeString_ldt ldt
      = Ok (wire (year (local_date ldt) mod 100) (month (local_date ldt))
              (day (local_date ldt))
              (ticks (time_of_day ldt) / (3600 * ticks_per_second))
              (ticks (time_of_day ldt) / (60 * ticks_per_second) mod 60)
              (ticks (time_of_day ldt) / ticks_per_second mod 60)
              0
              (ticks (dst_offset ldt) / (900 * ticks_per_second))
              "+")
      /\ legacy.getTimeString_ldt ldt <> timeformat.getTimeString ldt).
Proof.
  intros Hy Hm Hd Ht. split.
  - intros D. unfold legacy.getTimeString_ldt, timeformat.getTimeString.
    rewrite D. reflexivity.
  - intros D Hdst Hbase Hsum.
    assert (L : legacy.getTimeString_ldt ldt
                = Ok (wire (year (local_date ldt) mod 100) (month (local_date ldt))
                        (day (local_date ldt))
                        (ticks (time_of_day ldt) / (3600 * ticks_per_second))
                        (ticks (time_of_day ldt) / (60 * ticks_per_second) mod 60)
                        (ticks (time_of_day ldt) / ticks_per_second mod 60)
                        0
                        (ticks (dst_offset ldt) / (900 * ticks_per_second))
                        "+")).
    { destruct ldt as [[y m d] td base dst dstp].
      cbn [local_date year month day time_of_day base_utc_offset dst_offset is_dst] in *.
      subst dstp. unfold legacy.getTimeString_ldt.
      cbn [time_of_day base_utc_offset dst_offset is_dst local_date].
      rewrite ldt_layout; try assumption.
      - replace (ticks dst <? 0) with false by (symmetry; apply Z.ltb_ge; lia).
        now rewrite (Z.abs_eq (ticks dst)) by lia.
      - unfold ticks_per_second in *. lia. }
    split; [exact L|].
    rewrite L.
    pose proof (ldt_formatter_layout ldt) as N. cbv zeta in N.
    rewrite D in N. rewrite N by (assumption || unfold ticks_per_second in *; lia).
    replace (ticks (base_utc_offset ldt) + ticks (dst_offset ldt) <? 0) with false
      by (symmetry; apply Z.ltb_ge; lia).
    rewrite Z.abs_eq by lia.
    intros E.
    apply (f_equal (fun r => match r with
                             | Ok s => substring 13 2 s
                             | Throw _ => EmptyString
                             end)) in E.
    cbv beta iota in E.
    match type of E with
    | substring 13 2 (wire _ _ _ _ _ _ _ ?n1 _) = substring 13 2 (wire _ _ _ _ _ _ _ ?n2 _) =>
        change (two_digits n1 = two_digits n2) in E
    end.
    apply two_digits_inj in E;
      unfold field, ticks_per_second in *; zdiv.
Qed.

Lemma X14_legacy_ldt_formatter_witness :
  legacy.getTimeString_ldt
    (LocalDateTime (Date 2011 7 19) (Ticks 34200000000)
       (Ticks 3600000000) (Ticks 3600000000) true)
  = Ok (wire (2011 mod 100) 7 19
          (34200000000 / (3600 * ticks_per_second))
          (34200000000 / (60 * ticks_per_second) mod 60)
          (34200000000 / ticks_per_second mod 60)
          0
          (3600000000 / (900 * ticks_per_second))
          "+")
  /\ legacy.getTimeString_ldt
       (LocalDateTime (Date 2011 7 19) (Ticks 34200000000)
          (Ticks 3600000000) (Ticks 3600000000) true)
     <> timeformat.getTimeString
          (LocalDateTime (Date 2011 7 19) (Ticks 34200000000)
             (Ticks 3600000000) (Ticks 3600000000) true).
Proof.
  apply (X14_legacy_ldt_formatter
           (LocalDateTime (Date 2011 7 19) (Ticks 34200000000)
              (Ticks 3600000000) (Ticks 3600000000) true));
    cbn [local_date year month day time_of_day ticks is_dst base_utc_offset dst_offset];
    unfold ticks_per_second; try lia; reflexivity.
Defined.

(** ** Calendar fields out of range *)

(** X15: the absolute resolver does not reject calendar fields that are
    out of range, it carries them over: month 13..24 is month 1..12 of
    the next year, month 00 is December of the year before, and hour
    24..99 is hour 0..75 of the next day. *)
Theorem X15_out_of_range_fields_carried
  (tz now : Z) (g : tm) (yy mon dd hh mi ss t nn : Z) (p : ascii) :
  field yy -> field mon -> field dd -> field hh -> field mi -> field ss ->
  tenth t -> field nn -> p = "+"%char \/ p = "-"%char ->
  (13 <= mon <= 24 -> yy <= 98 ->
   ParseSmppTimestamp tz now g (wire yy mon dd hh mi ss t nn p)
   = ParseSmppTimestamp tz now g (wire (yy + 1) (mon - 12) dd hh mi ss t nn p))
  /\ (mon = 0 -> 1 <= yy ->
      ParseSmppTimestamp tz now g (wire yy mon dd hh mi ss t nn p)
      = ParseSmppTimestamp tz now g (wire (yy - 1) 12 dd hh mi ss t nn p))
  /\ (24 <= hh -> dd <= 98 ->
      ParseSmppTimestamp tz now g (wire yy mon dd hh mi ss t nn p)
      = ParseSmppTimestamp tz now g (wire yy mon (dd + 1) (hh - 24) mi ss t nn p)).
Proof.
  intros Hyy Hmon Hdd Hhh Hmi Hss Ht Hnn Hp.
  unfold field in *.
  assert (M : forall y m d h y' m' d' h' o,
             y + (m - 1) / 12 = y' + (m' - 1) / 12 ->
             (m - 1) mod 12 = (m' - 1) mod 12 ->
             d * 24 + h = d' * 24 + h' ->
             mktime tz (mkTm ss mi h d (m - 1) (100 + y) (-1) o)
             = mktime tz (mkTm ss mi h' d' (m' - 1) (100 + y') (-1) o)).
  { intros y m d h y' m' d' h' o E1 E2 E3.
    cbv [mktime civil_seconds days_from_civil
         tm_sec tm_min tm_hour tm_mday tm_mon tm_year tm_isdst tm_gmtoff].
    replace (1900 + (100 + y) + (m - 1) / 12) with (1900 + (100 + y') + (m' - 1) / 12) by lia.
    rewrite E2. lia. }
  split; [|split].
  - intros Hm Hy.
    rewrite !parse_absolute_wire by (assumption || unfold field; lia).
    cbv zeta. rewrite (M yy mon dd hh (yy + 1) (mon - 12) dd hh); [reflexivity|zdiv|zdiv|lia].
  - intros Hm Hy. subst mon.
    rewrite !parse_absolute_wire by (assumption || unfold field; lia).
    cbv zeta.
    change (12 - 1) with (13 - 1 - 1).
    rewrite (M yy 0 dd hh (yy - 1) (13 - 1) dd hh); [reflexivity|zdiv|zdiv|lia].
  - intros Hh Hd.
    rewrite !parse_absolute_wire by (assumption || unfold field; lia).
    cbv zeta. rewrite (M yy mon dd hh yy mon (dd + 1) (hh - 24)); [reflexivity|lia|lia|lia].
Qed.

Lemma X15_out_of_range_fields_carried_witness :
  ParseSmppTimestamp 0 0 zero_tm (wire 11 13 19 8 0 0 0 2 "+")
  = ParseSmppTimestamp 0 0 zero_tm (wire (11 + 1) (13 - 12) 19 8 0 0 0 2 "+").
Proof.
  apply (X15_out_of_range_fields_carried 0 0 zero_tm 11 13 19 8 0 0 0 2 "+");
    try (unfold field, tenth; lia).
  left; reflexivity.
Defined.

(** ** The delivery-receipt parser on an input without digits *)

(** X16: on an input whose first character after leading blanks is not a
    digit (the empty string included) no conversion takes place, and the
    delivery-receipt parser returns the instant that [mktime] computes
    from the year, month, day, hour and minute found in the
    uninitialised structure, with second 0. *)
Theorem X16_dlr_without_digits (tz : Z) (g : tm) (s : string) :
  match skip_space s with
  | String c _ => isdigit c = false
  | EmptyString => True
  end ->
  ParseDlrTimestamp tz g s
  = Ok (from_time_t
          (mktime tz (mkTm 0 (tm_min g) (tm_hour g) (tm_mday g) (tm_mon g) (tm_year g)
                        (-1) (tm_gmtoff g)))).
Proof.
  intros H. unfold ParseDlrTimestamp, dlr_format.
  cbn [strptime strptime_conv]. unfold get_number.
  destruct (skip_space s) as [|c r].
  - reflexivity.
  - rewrite H. reflexivity.
Qed.

Lemma X16_dlr_without_digits_witness :
  ParseDlrTimestamp 0 (mkTm 7 6 5 4 3 102 1 0) "hello"
  = Ok (from_time_t (mktime 0 (mkTm 0 6 5 4 3 102 (-1) 0))).
Proof.
  apply (X16_dlr_without_digits 0 (mkTm 7 6 5 4 3 102 1 0) "hello"). reflexivity.
Defined.
